(** * KEGG-HDMB: the metabolite classification pipeline of [app.py]

    A shallow embedding of the resolution, retrieval, merge and
    classification functions of [app.py] ([search_hmdb_id], [query_hmdb],
    [get_kegg_id], [query_kegg], [classify_metabolites]) and the properties
    the specification states about them.

    Conventions of the embedding.
    - A Python [str] is a [string]; a character is read as the code point
      of the same number, so the strings of the model are the Python
      strings whose code points are below 256.
    - A value produced by [response.json()] or [xmltodict.parse] is a
      [pyval]; a Python [dict] is an association list with unique keys kept
      in insertion order.
    - A Python expression that can raise is a [result]; [try/except] is a
      [match] on it.
    - The network is an oracle: for the item at index [i] of the input list
      it gives the outcome of each request that the item may issue. *)

From Stdlib Require Import String Ascii List ZArith Bool Lia DecimalString.
Import ListNotations.
Open Scope string_scope.
Open Scope list_scope.

(** ** Python strings *)

Module PyStr.

(** [x in s] for strings, first as a prefix test. *)
Fixpoint startswith (p s : string) : bool :=
  match p, s with
  | EmptyString, _ => true
  | String a p', String b s' => if Ascii.eqb a b then startswith p' s' else false
  | String _ _, EmptyString => false
  end.

Fixpoint contains (p s : string) : bool :=
  startswith p s ||
  match s with
  | EmptyString => false
  | String _ s' => contains p s'
  end.

(** [s.split(c)] for a separator of one character. *)
Fixpoint split (c : ascii) (s : string) : list string :=
  match s with
  | EmptyString => [EmptyString]
  | String x r =>
      if Ascii.eqb x c then EmptyString :: split c r
      else match split c r with
           | h :: t => String x h :: t
           | [] => [String x EmptyString]
           end
  end.

(** [s.replace(old, new)] for a non-empty [old]: left to right, matches do
    not overlap. [skip] counts the characters of a match still to drop. *)
Fixpoint replace_from (old new : string) (skip : nat) (s : string) : string :=
  match s with
  | EmptyString => EmptyString
  | String c r =>
      match skip with
      | S k => replace_from old new k r
      | O =>
          if startswith old s
          then new ++ replace_from old new (String.length old - 1) r
          else String c (replace_from old new 0 r)
      end
  end.

Definition replace (old new s : string) : string := replace_from old new 0 s.

(** [str.lower] on code points below 256: A-Z and the Latin-1 capitals
    0xC0-0xDE, the multiplication sign 0xD7 apart, move up by 32. *)
Definition lower_char (c : ascii) : ascii :=
  let n := nat_of_ascii c in
  if (((65 <=? n) && (n <=? 90)) ||
      ((192 <=? n) && (n <=? 222) && negb (n =? 215)))%nat
  then ascii_of_nat (n + 32) else c.

Fixpoint lower (s : string) : string :=
  match s with
  | EmptyString => EmptyString
  | String c r => String (lower_char c) (lower r)
  end.

(** The class [\s] of [re] on a [str] pattern, for code points below 256. *)
Definition isspace (c : ascii) : bool :=
  let n := nat_of_ascii c in
  (((9 <=? n) && (n <=? 13)) || ((28 <=? n) && (n <=? 32)) ||
   (n =? 133) || (n =? 160))%nat.

Fixpoint lstrip_space (s : string) : string :=
  match s with
  | EmptyString => EmptyString
  | String c r => if isspace c then lstrip_space r else s
  end.

(** [re.split(r'\s+', s, maxsplit=1)]: one piece when [s] has no
    whitespace, else the text before the first run of whitespace and the
    text after that run. *)
Fixpoint re_split_space1 (s : string) : list string :=
  match s with
  | EmptyString => [EmptyString]
  | String c r =>
      if isspace c then [EmptyString; lstrip_space r]
      else match re_split_space1 r with
           | [h] => [String c h]
           | h :: t => String c h :: t
           | [] => [String c EmptyString]
           end
  end.

Definition nonempty (s : string) : bool :=
  match s with EmptyString => false | _ => true end.

Definition newline : ascii := ascii_of_nat 10.
Definition tab : ascii := ascii_of_nat 9.
Definition colon : ascii := ":"%char.

(** [str(z)] for an integer: its decimal digits. *)
Definition of_Z (z : Z) : string :=
  NilZero.string_of_int (Z.to_int z).

End PyStr.

(** ** Exceptions and results *)

Inductive exn : Type :=
| RequestException (msg : string)   (* transport failure: timeout, refused, ... *)
| HTTPError (msg : string)          (* raise_for_status *)
| ParseError (msg : string)         (* JSONDecodeError, ExpatError *)
| AttributeError (msg : string)
| TypeError (msg : string)
| KeyError (msg : string)
| IndexError (msg : string)
| ValueError (msg : string).

(** [str(e)] *)
Definition str_exn (e : exn) : string :=
  match e with
  | RequestException m | HTTPError m | ParseError m | AttributeError m
  | TypeError m | KeyError m | IndexError m | ValueError m => m
  end.

Inductive result (A : Type) : Type :=
| Ok (a : A)
| Raise (e : exn).
Arguments Ok {A} a.
Arguments Raise {A} e.

Definition bind {A B} (r : result A) (f : A -> result B) : result B :=
  match r with
  | Ok a => f a
  | Raise e => Raise e
  end.

Notation "x <- r ;; k" := (bind r (fun x => k))
  (at level 61, r at next level, right associativity).

Fixpoint mapM {A B} (f : A -> result B) (l : list A) : result (list B) :=
  match l with
  | [] => Ok []
  | a :: r => b <- f a ;; bs <- mapM f r ;; Ok (b :: bs)
  end.

(** ** Insertion-ordered dictionaries *)

Module Dict.
Section Ops.
Context {V : Type}.

Definition t := list (string * V).

Fixpoint get (k : string) (d : t) : option V :=
  match d with
  | [] => None
  | (k', v) :: r => if String.eqb k k' then Some v else get k r
  end.

Definition mem (k : string) (d : t) : bool :=
  match get k d with Some _ => true | None => false end.

Definition get_default (k : string) (dflt : V) (d : t) : V :=
  match get k d with Some v => v | None => dflt end.

(** [d[k] = v]: an existing key keeps its place, a new key goes last. *)
Fixpoint set (k : string) (v : V) (d : t) : t :=
  match d with
  | [] => [(k, v)]
  | (k', v') :: r =>
      if String.eqb k k' then (k', v) :: r else (k', v') :: set k v r
  end.

(** [d.update(e)] *)
Definition update (d e : t) : t :=
  fold_left (fun acc kv => set (fst kv) (snd kv) acc) e d.

Definition keys (d : t) : list string := map fst d.
End Ops.
Arguments t : clear implicits.
End Dict.

(** ** Dynamically typed values *)

#[local] Set Warnings "-register-all".

Inductive pyval : Type :=
| VNone
| VBool (b : bool)
| VInt (z : Z)
| VStr (s : string)
| VList (l : list pyval)
| VDict (d : list (string * pyval)).

Definition pydict := Dict.t pyval.

Definition type_name (v : pyval) : string :=
  match v with
  | VNone => "NoneType"
  | VBool _ => "bool"
  | VInt _ => "int"
  | VStr _ => "str"
  | VList _ => "list"
  | VDict _ => "dict"
  end.

(** Truth value of an object, as [if x] and [not x] test it. *)
Definition truthy (v : pyval) : bool :=
  match v with
  | VNone => false
  | VBool b => b
  | VInt z => negb (z =? 0)%Z
  | VStr s => PyStr.nonempty s
  | VList l => match l with [] => false | _ => true end
  | VDict d => match d with [] => false | _ => true end
  end.

Definition is_dict (v : pyval) : bool :=
  match v with VDict _ => true | _ => false end.

Definition no_attribute (v : pyval) (attr : string) : exn :=
  AttributeError ("'" ++ type_name v ++ "' object has no attribute '" ++ attr ++ "'").

(** [v.get(k, dflt)] *)
Definition py_get (v : pyval) (k : string) (dflt : pyval) : result pyval :=
  match v with
  | VDict d => Ok (Dict.get_default k dflt d)
  | _ => Raise (no_attribute v "get")
  end.

(** [v[k]] for a string [k] *)
Definition py_getitem (v : pyval) (k : string) : result pyval :=
  match v with
  | VDict d =>
      match Dict.get k d with
      | Some x => Ok x
      | None => Raise (KeyError ("'" ++ k ++ "'"))
      end
  | VStr _ => Raise (TypeError "string indices must be integers, not 'str'")
  | VList _ => Raise (TypeError "list indices must be integers or slices, not str")
  | _ => Raise (TypeError ("'" ++ type_name v ++ "' object is not subscriptable"))
  end.

(** [v[0]] *)
Definition py_first (v : pyval) : result pyval :=
  match v with
  | VList (x :: _) => Ok x
  | VList [] => Raise (IndexError "list index out of range")
  | VStr (String c _) => Ok (VStr (String c EmptyString))
  | VStr EmptyString => Raise (IndexError "string index out of range")
  | VDict _ => Raise (KeyError "0")
  | _ => Raise (TypeError ("'" ++ type_name v ++ "' object is not subscriptable"))
  end.

(** The items that [for p in v] visits. *)
Definition py_iter (v : pyval) : result (list pyval) :=
  match v with
  | VList l => Ok l
  | VStr s => Ok (map (fun c => VStr (String c EmptyString)) (list_ascii_of_string s))
  | VDict d => Ok (map (fun kv => VStr (fst kv)) d)
  | _ => Raise (TypeError ("'" ++ type_name v ++ "' object is not iterable"))
  end.

(** [v.lower()] *)
Definition py_lower (v : pyval) : result string :=
  match v with
  | VStr s => Ok (PyStr.lower s)
  | _ => Raise (no_attribute v "lower")
  end.

(** ** The network oracle *)

(** What [requests.get] hands back when it does not raise: the status line,
    the final URL and the body, already read the way the caller reads it
    ([.text], [.json()], or [xmltodict.parse] of [.content]). *)
Record response (B : Type) : Type := mkResponse {
  status_code : Z;
  reason : string;
  url : string;
  body : B
}.
Arguments mkResponse {B}.
Arguments status_code {B}.
Arguments reason {B}.
Arguments url {B}.
Arguments body {B}.

(** [response.raise_for_status()] *)
Definition raise_for_status {B} (r : response B) : result unit :=
  if ((400 <=? status_code r) && (status_code r <? 500))%Z then
    Raise (HTTPError (PyStr.of_Z (status_code r) ++ " Client Error: " ++
                      reason r ++ " for url: " ++ url r))
  else if ((500 <=? status_code r) && (status_code r <? 600))%Z then
    Raise (HTTPError (PyStr.of_Z (status_code r) ++ " Server Error: " ++
                      reason r ++ " for url: " ++ url r))
  else Ok tt.

(** The requests one HMDB item may issue: the search, whose body is read
    with [.json()], and the detail document, read with [xmltodict.parse]. *)
Record hmdb_responses : Type := mkHmdb {
  hmdb_search : result (response (result pyval));
  hmdb_detail : result (response (result pyval))
}.

(** The requests one KEGG item may issue; all three are read as [.text]. *)
Record kegg_responses : Type := mkKegg {
  kegg_find : result (response string);
  kegg_get : result (response string);
  kegg_link : result (response string)
}.

(** ** HMDB *)

(** The body of the [try] block of [search_hmdb_id]; falling off the end
    of the block is [Ok VNone]. *)
Definition search_hmdb_id_try (get : result (response (result pyval))) : result pyval :=
  response <- get ;;
  if (status_code response =? 200)%Z then
    data <- body response ;;
    ms <- py_getitem data "metabolites" ;;
    if truthy ms then
      m <- py_first ms ;;
      py_getitem m "hmdb_id"
    else Ok VNone
  else Ok VNone.

Definition search_hmdb_id (get : result (response (result pyval))) : pyval :=
  match search_hmdb_id_try get with
  | Ok v => v
  | Raise _ => VNone          (* except: pass; return None *)
  end.

(** [[p.get('name', '') for p in pathways if isinstance(p, dict)]] *)
Definition pathway_names (pathways : pyval) : result (list pyval) :=
  ps <- py_iter pathways ;;
  mapM (fun p => py_get p "name" (VStr "")) (filter is_dict ps).

(** [[pathways] if isinstance(pathways, dict) else pathways] *)
Definition normalize_pathways (pathways : pyval) : pyval :=
  if is_dict pathways then VList [pathways] else pathways.

(** The [try] block of [query_hmdb] after the identifier is known. *)
Definition hmdb_fetch (hmdb_id : pyval) (w : hmdb_responses) : result pydict :=
  response <- hmdb_detail w ;;
  _ <- raise_for_status response ;;
  data <- body response ;;
  info <- py_get data "metabolite" (VDict []) ;;
  classification <- py_get info "classification" (VDict []) ;;
  pw <- py_get info "pathways" (VDict []) ;;
  pathways <- py_get pw "pathway" (VList []) ;;
  let pathways := normalize_pathways pathways in
  super_class <- py_get classification "super_class" (VStr "Unknown") ;;
  class <- py_get classification "class" (VStr "Unknown") ;;
  sub_class <- py_get classification "sub_class" (VStr "Unknown") ;;
  names <- pathway_names pathways ;;
  Ok [("hmdb_id", hmdb_id);
      ("super_class", super_class);
      ("class", class);
      ("sub_class", sub_class);
      ("hmdb_pathways", VList names);
      ("hmdb_status", VStr "Found")].

(** One iteration of the loop of [query_hmdb]: the value stored in
    [results[metab]]. *)
Definition hmdb_item (w : hmdb_responses) : pydict :=
  let hmdb_id := search_hmdb_id (hmdb_search w) in
  if negb (truthy hmdb_id) then [("hmdb_status", VStr "ID not found")]
  else match hmdb_fetch hmdb_id w with
       | Ok record => record
       | Raise e => [("hmdb_status", VStr ("Error: " ++ str_exn e))]
       end.

(** [for i, metab in enumerate(metabolites)], with [i] counted from [i0]. *)
Fixpoint query_hmdb_loop (world : nat -> hmdb_responses) (i0 : nat)
    (metabolites : list string) (results : Dict.t pydict) : Dict.t pydict :=
  match metabolites with
  | [] => results
  | metab :: rest =>
      query_hmdb_loop world (S i0) rest (Dict.set metab (hmdb_item (world i0)) results)
  end.

Definition query_hmdb (world : nat -> hmdb_responses) (metabolites : list string)
    : Dict.t pydict :=
  query_hmdb_loop world 0 metabolites [].

(** ** KEGG *)

(** [l[1]] *)
Definition second (l : list string) : result string :=
  match l with
  | _ :: x :: _ => Ok x
  | _ => Raise (IndexError "list index out of range")
  end.

(** [kegg_id, name = re.split(...)] followed by [kegg_id.split(':')[1]] *)
Definition kegg_id_of_line (line : string) : result string :=
  match PyStr.re_split_space1 line with
  | [kegg_id; name] => second (PyStr.split PyStr.colon kegg_id)
  | l => Raise (ValueError ("not enough values to unpack (expected 2, got " ++
                            PyStr.of_Z (Z.of_nat (List.length l)) ++ ")"))
  end.

(** The [for] loop of [get_kegg_id]: the first non-empty line returns or
    raises; [Ok None] is the loop running to its end. *)
Fixpoint scan_lines (lines : list string) : result (option string) :=
  match lines with
  | [] => Ok None
  | line :: rest =>
      if PyStr.nonempty line then
        kegg_id <- kegg_id_of_line line ;; Ok (Some kegg_id)
      else scan_lines rest
  end.

Definition get_kegg_id_try (get : result (response string)) : result (option string) :=
  response <- get ;;
  if (status_code response =? 200)%Z && PyStr.nonempty (body response) then
    scan_lines (PyStr.split PyStr.newline (body response))
  else Ok None.

Definition get_kegg_id (get : result (response string)) : option string :=
  match get_kegg_id_try get with
  | Ok r => r
  | Raise _ => None            (* except: pass; return None *)
  end.

(** [[line.split("\t")[1].replace("path:", "") for line in
      path_data.split("\n") if line]] *)
Definition kegg_pathways (path_data : string) : result (list string) :=
  mapM (fun line => x <- second (PyStr.split PyStr.tab line) ;;
                    Ok (PyStr.replace "path:" "" x))
       (filter PyStr.nonempty (PyStr.split PyStr.newline path_data)).

Definition kegg_description (info_data : string) : string :=
  match PyStr.split PyStr.newline info_data with
  | _ :: x :: _ => x
  | _ => ""
  end.

(** The [try] block of [query_kegg] after the identifier is known. *)
Definition kegg_fetch (kegg_id : string) (w : kegg_responses) : result pydict :=
  info <- kegg_get w ;;
  let info_data := body info in
  path <- kegg_link w ;;
  let path_data := body path in
  pathways <- kegg_pathways path_data ;;
  let metab_type :=
    if PyStr.contains "Secondary metabolites" info_data then "secondary" else "primary" in
  Ok [("kegg_id", VStr kegg_id);
      ("type", VStr metab_type);
      ("kegg_pathways", VList (map VStr pathways));
      ("description", VStr (kegg_description info_data));
      ("kegg_status", VStr "Found")].

(** One iteration of the loop of [query_kegg]. [not kegg_id] holds for
    [None] and for the empty string. *)
Definition kegg_item (w : kegg_responses) : pydict :=
  match get_kegg_id (kegg_find w) with
  | None | Some EmptyString => [("kegg_status", VStr "ID not found")]
  | Some kegg_id =>
      match kegg_fetch kegg_id w with
      | Ok record => record
      | Raise e => [("kegg_status", VStr ("Error: " ++ str_exn e))]
      end
  end.

Fixpoint query_kegg_loop (world : nat -> kegg_responses) (i0 : nat)
    (metabolites : list string) (results : Dict.t pydict) : Dict.t pydict :=
  match metabolites with
  | [] => results
  | metab :: rest =>
      query_kegg_loop world (S i0) rest (Dict.set metab (kegg_item (world i0)) results)
  end.

Definition query_kegg (world : nat -> kegg_responses) (metabolites : list string)
    : Dict.t pydict :=
  query_kegg_loop world 0 metabolites [].

(** ** Merge and classification *)

Definition primary_keywords : list string := ["lipid"; "organic acid"; "nucleoside"].
Definition secondary_keywords : list string := ["flavonoid"; "alkaloid"; "terpene"].

(** [any(x in super_class for x in keywords)] *)
Definition any_in (keywords : list string) (super_class : string) : bool :=
  existsb (fun x => PyStr.contains x super_class) keywords.

(** The [if 'type' in ... else ...] statement of [classify_metabolites],
    on the merged record of one name. *)
Definition set_final_type (record : pydict) : result pydict :=
  match Dict.get "type" record with
  | Some ty => Ok (Dict.set "final_type" ty record)
  | None =>
      super_class <- py_lower (Dict.get_default "super_class" (VStr "") record) ;;
      if any_in primary_keywords super_class then
        Ok (Dict.set "final_type" (VStr "primary") record)
      else if any_in secondary_keywords super_class then
        Ok (Dict.set "final_type" (VStr "secondary") record)
      else Ok (Dict.set "final_type" (VStr "unknown") record)
  end.

(** The two [update] calls: HMDB fields first, KEGG fields over them. *)
Definition merge (record hmdb kegg : pydict) : pydict :=
  Dict.update (Dict.update record hmdb) kegg.

(** The loop of [classify_metabolites]. [classified] is a
    [defaultdict(dict)]: a name not yet seen starts from the empty record.
    An exception of the loop body leaves the function. *)
Fixpoint classify_loop (hmdb_data kegg_data : Dict.t pydict)
    (metabolites : list string) (classified : Dict.t pydict)
    : result (Dict.t pydict) :=
  match metabolites with
  | [] => Ok classified
  | metab :: rest =>
      let record := Dict.get_default metab [] classified in
      let record := merge record (Dict.get_default metab [] hmdb_data)
                                 (Dict.get_default metab [] kegg_data) in
      record <- set_final_type record ;;
      classify_loop hmdb_data kegg_data rest (Dict.set metab record classified)
  end.

(** [classify_metabolites] up to its [return] statement: the dict
    [classified] when the loop has ended, keyed by name in insertion order.
    Line 177 hands this dict to [DataFrame.from_dict]; the table that the
    function returns is [classify_metabolites_table] below. *)
Definition classify_metabolites (hmdb_world : nat -> hmdb_responses)
    (kegg_world : nat -> kegg_responses) (metabolites : list string)
    : result (Dict.t pydict) :=
  let hmdb_data := query_hmdb hmdb_world metabolites in
  let kegg_data := query_kegg kegg_world metabolites in
  classify_loop hmdb_data kegg_data metabolites [].

(** ** The result table *)

(** The part of a pandas [DataFrame] that the page reads: the row labels,
    the column labels, and the cells, column by column; a cell that is
    not there is a missing value. *)
Record DataFrame : Type := mkDataFrame {
  df_index : list string;
  df_columns : list string;
  df_cells : Dict.t pydict
}.

(** [df.at[row, col]], with [None] for a missing value. *)
Definition df_at (df : DataFrame) (row col : string) : option pyval :=
  Dict.get row (Dict.get_default col [] (df_cells df)).

(** [new_data[col][index] = v] on a [defaultdict(dict)]. *)
Definition nested_set (new_data : Dict.t pydict) (index col : string) (v : pyval)
    : Dict.t pydict :=
  Dict.set col (Dict.set index v (Dict.get_default col [] new_data)) new_data.

(** The inner loop of pandas' [_from_nested_dict]:
    [for col, v in s.items(): new_data[col][index] = v]. *)
Definition add_row (new_data : Dict.t pydict) (index : string) (s : pydict)
    : Dict.t pydict :=
  fold_left (fun nd cell => nested_set nd index (fst cell) (snd cell)) s new_data.

(** [_from_nested_dict(data)]: the dict of rows turned into a dict of
    columns. *)
Definition from_nested_dict (data : Dict.t pydict) : Dict.t pydict :=
  fold_left (fun nd row => add_row nd (fst row) (snd row)) data [].

(** The labels of [l], each once, in the order in which they first appear:
    what pandas' [union_indexes(indexes, sort=False)] gives for the
    concatenation of lists of labels. *)
Fixpoint first_seen (l : list string) : list string :=
  match l with
  | [] => []
  | x :: r => x :: filter (fun y => negb (String.eqb y x)) (first_seen r)
  end.

Definition union_indexes (indexes : list (list string)) : list string :=
  first_seen (concat indexes).

(** [pd.DataFrame.from_dict(data, orient='index')] for a dict of dicts, as
    pandas builds it: the data is transposed by [_from_nested_dict], the
    columns are the keys of the transposed dict, and the row index is the
    union, without sorting, of the key lists of the columns. *)
Definition DataFrame_from_dict (data : Dict.t pydict) : DataFrame :=
  let new_data := from_nested_dict data in
  mkDataFrame (union_indexes (map (fun col => Dict.keys (snd col)) new_data))
              (Dict.keys new_data)
              new_data.

(** [classify_metabolites] with its [return] statement: the table of
    line 177. *)
Definition classify_metabolites_table (hmdb_world : nat -> hmdb_responses)
    (kegg_world : nat -> kegg_responses) (metabolites : list string)
    : result DataFrame :=
  classified <- classify_metabolites hmdb_world kegg_world metabolites ;;
  Ok (DataFrame_from_dict classified).

(** ** Reading strings: the vocabulary of the statements *)

Module Text.

(** Some character of [s] satisfies [p]. *)
Fixpoint has (p : ascii -> bool) (s : string) : bool :=
  match s with
  | EmptyString => false
  | String c r => p c || has p r
  end.

(** The characters of [s] before the first one that satisfies [p]. *)
Fixpoint take_until (p : ascii -> bool) (s : string) : string :=
  match s with
  | EmptyString => EmptyString
  | String c r => if p c then EmptyString else String c (take_until p r)
  end.

(** The characters of [s] after the first one that satisfies [p]. *)
Fixpoint after_first (p : ascii -> bool) (s : string) : string :=
  match s with
  | EmptyString => EmptyString
  | String c r => if p c then r else after_first p r
  end.

Definition same (c : ascii) : ascii -> bool := fun x => Ascii.eqb x c.

(** [n] line feeds. *)
Fixpoint newlines (n : nat) : string :=
  match n with
  | O => EmptyString
  | S k => String PyStr.newline (newlines k)
  end.

(** Comparison up to case. *)
Fixpoint ci_startswith (p s : string) : bool :=
  match p, s with
  | EmptyString, _ => true
  | String a p', String b s' =>
      if Ascii.eqb (PyStr.lower_char a) (PyStr.lower_char b)
      then ci_startswith p' s' else false
  | String _ _, EmptyString => false
  end.

(** Some substring of [s] is [p] up to case. *)
Fixpoint ci_contains (p s : string) : bool :=
  ci_startswith p s ||
  match s with
  | EmptyString => false
  | String _ s' => ci_contains p s'
  end.

End Text.

(** ** Reference functions of the statements *)

(** The first line of [text] that is not empty. *)
Definition first_nonempty_line (text : string) : option string :=
  find PyStr.nonempty (PyStr.split PyStr.newline text).

(** The text between the first colon of [tok] and its second colon (or its
    end); nothing when [tok] has no colon. *)
Definition between_colons (tok : string) : option string :=
  if Text.has (Text.same PyStr.colon) tok
  then Some (Text.take_until (Text.same PyStr.colon)
               (Text.after_first (Text.same PyStr.colon) tok))
  else None.

(** The identifier that the first non-empty line of a KEGG search answer
    carries: the line must have a whitespace separator, and the token
    before it a colon. *)
Definition kegg_id_spec (get : result (response string)) : option string :=
  match get with
  | Raise _ => None
  | Ok r =>
      if (status_code r =? 200)%Z then
        match first_nonempty_line (body r) with
        | None => None
        | Some line =>
            if Text.has PyStr.isspace line
            then between_colons (Text.take_until PyStr.isspace line)
            else None
        end
      else None
  end.

(** The keyword rule on [super_class], read up to case. *)
Definition heuristic_type (super_class : string) : string :=
  if existsb (fun k => Text.ci_contains k super_class)
             ["lipid"; "organic acid"; "nucleoside"] then "primary"
  else if existsb (fun k => Text.ci_contains k super_class)
                  ["flavonoid"; "alkaloid"; "terpene"] then "secondary"
  else "unknown".

(** The [name] fields of the entries of [l] that are objects, in order. *)
Fixpoint entry_names (l : list pyval) : list pyval :=
  match l with
  | [] => []
  | VDict d :: r => Dict.get_default "name" (VStr "") d :: entry_names r
  | _ :: r => entry_names r
  end.

(** A pathway-link payload: one line [<compound>\t path:<code>] per entry. *)
Fixpoint link_payload (entries : list (string * string)) : string :=
  match entries with
  | [] => EmptyString
  | (compound, code) :: r =>
      compound ++ String PyStr.tab ("path:" ++ code) ++
      String PyStr.newline (link_payload r)
  end.

(** A compound reference has no tab and no line feed; a pathway code has
    neither, and does not contain [path:]. *)
Definition link_entry_ok (e : string * string) : Prop :=
  Text.has (Text.same PyStr.tab) (fst e) = false /\
  Text.has (Text.same PyStr.newline) (fst e) = false /\
  Text.has (Text.same PyStr.tab) (snd e) = false /\
  Text.has (Text.same PyStr.newline) (snd e) = false /\
  PyStr.contains "path:" (snd e) = false.

(** ** Sample answers of the two services *)

Module Sample.

Definition ok {B} (status : Z) (b : B) : result (response B) :=
  Ok (mkResponse status "" "" b).

Definition timeout {B} : result (response B) :=
  Raise (RequestException "Read timed out. (read timeout=10)").

(** An HMDB search answer with one match. *)
Definition search_json : pyval :=
  VDict [("metabolites",
          VList [VDict [("hmdb_id", VStr "HMDB0000122"); ("name", VStr "D-Glucose")];
                 VDict [("hmdb_id", VStr "HMDB0003345"); ("name", VStr "alpha-D-Glucose")]])].

(** The same answer under status 203 (Non-Authoritative Information). *)
Definition search_203 : result (response (result pyval)) := ok 203 (Ok search_json).
Definition search_200 : result (response (result pyval)) := ok 200 (Ok search_json).

(** A KEGG search answer: [cpd:C00031\tD-Glucose; Grape sugar]. *)
Definition find_text : string :=
  "cpd:C00031" ++ String PyStr.tab ("D-Glucose; Grape sugar" ++ String PyStr.newline "").

(** A first line without separator, followed by a well-formed line. *)
Definition find_garbled : string :=
  "<html>" ++ String PyStr.newline find_text.

(** A pathway-link answer that names one pathway twice. *)
Definition link_twice : string :=
  link_payload [("cpd:C00031", "map00010"); ("cpd:C00031", "map00010");
                ("cpd:C00031", "map00030")].

Definition link_once : string :=
  link_payload [("cpd:C00031", "map00010")].

(** The identifier resolves, the detail fetch answers 503 with an error
    page, the pathway-link fetch answers normally. *)
Definition kegg_detail_503 : kegg_responses :=
  mkKegg (ok 200 find_text)
         (Ok (mkResponse 503 "Service Unavailable"
                "http://rest.kegg.jp/get/cpd:C00031" "Service Unavailable"))
         (ok 200 link_once).

Definition kegg_twice : kegg_responses :=
  mkKegg (ok 200 find_text) (ok 200 "ENTRY       C00031") (ok 200 link_twice).

End Sample.

Module SampleHmdb.

(** A detail document whose [pathway] is a single object. *)
Definition one_pathway : pyval :=
  VDict [("metabolite",
    VDict [("accession", VStr "HMDB0000122");
           ("classification",
            VDict [("super_class", VStr "Organic oxygen compounds");
                   ("class", VStr "Organooxygen compounds");
                   ("sub_class", VStr "Carbohydrates and carbohydrate conjugates")]);
           ("pathways",
            VDict [("pathway",
                    VDict [("name", VStr "Glycolysis"); ("smpdb_id", VStr "SMP0000040")])])])].

(** A detail document whose [pathway] is a list, two of whose entries are
    not objects. *)
Definition mixed_pathways : pyval :=
  VDict [("metabolite",
    VDict [("accession", VStr "HMDB0000122");
           ("pathways",
            VDict [("pathway",
                    VList [VDict [("name", VStr "Glycolysis")];
                           VNone;
                           VStr "Gluconeogenesis";
                           VDict [("smpdb_id", VStr "SMP0000128")]])])])].

(** A detail document whose [super_class] element is empty; [xmltodict]
    reads an empty element as [None]. *)
Definition empty_super_class : pyval :=
  VDict [("metabolite",
    VDict [("accession", VStr "HMDB0000122");
           ("classification",
            VDict [("super_class", VNone);
                   ("class", VStr "Organooxygen compounds")])])].

Definition found (doc : pyval) : hmdb_responses :=
  mkHmdb Sample.search_200 (Sample.ok 200 (Ok doc)).

End SampleHmdb.

Module SampleRecord.

(** A merged record with KEGG type [secondary] and a lipid super class. *)
Definition secondary_lipid : pydict :=
  [("hmdb_id", VStr "HMDB0000067");
   ("super_class", VStr "Lipids and lipid-like molecules");
   ("hmdb_status", VStr "Found");
   ("kegg_id", VStr "C00187");
   ("type", VStr "secondary");
   ("kegg_status", VStr "Found")].

(** A merged record without KEGG type. *)
Definition flavonoid : pydict :=
  [("hmdb_id", VStr "HMDB0005794");
   ("super_class", VStr "Flavonoid glycoside");
   ("hmdb_status", VStr "Found");
   ("kegg_status", VStr "ID not found")].

End SampleRecord.

(** ** Reference functions for the loops *)

(** The elements of [l], each kept at its first occurrence. *)
Fixpoint uniq (l : list string) : list string :=
  match l with
  | [] => []
  | x :: r => x :: filter (fun y => negb (String.eqb y x)) (uniq r)
  end.

(** [n] occurs at index [j] of [l] and at no later index. *)
Definition last_at (l : list string) (j : nat) (n : string) : Prop :=
  nth_error l j = Some n /\ forall j', j < j' -> nth_error l j' <> Some n.

(** The assignments [results[metab] = f i] of a loop over
    [enumerate(metabolites)], in order. *)
Fixpoint assignments {V} (f : nat -> V) (i0 : nat) (metabolites : list string)
    : list (string * V) :=
  match metabolites with
  | [] => []
  | metab :: rest => (metab, f i0) :: assignments f (S i0) rest
  end.

(** The record of one name: the two query results merged into an empty
    record, then classified. *)
Definition row_of (hmdb_data kegg_data : Dict.t pydict) (metab : string) : result pydict :=
  set_final_type (merge [] (Dict.get_default metab [] hmdb_data)
                           (Dict.get_default metab [] kegg_data)).

Definition final_types : list pyval := [VStr "primary"; VStr "secondary"; VStr "unknown"].

(** The two shapes of a record that [query_hmdb] stores. *)
Definition hmdb_shape (r : pydict) : Prop :=
  (exists status, r = [("hmdb_status", VStr status)]) \/
  (exists id super_class class sub_class names,
      r = [("hmdb_id", id); ("super_class", super_class); ("class", class);
           ("sub_class", sub_class); ("hmdb_pathways", VList names);
           ("hmdb_status", VStr "Found")]).

(** The two shapes of a record that [query_kegg] stores. *)
Definition kegg_shape (r : pydict) : Prop :=
  (exists status, r = [("kegg_status", VStr status)]) \/
  (exists id ty pathways description,
      (ty = "primary" \/ ty = "secondary") /\
      r = [("kegg_id", VStr id); ("type", VStr ty);
           ("kegg_pathways", VList pathways); ("description", VStr description);
           ("kegg_status", VStr "Found")]).

(** Every record already stored in [classified] is the record of its name. *)
Definition rows_settled (hmdb_data kegg_data classified : Dict.t pydict) : Prop :=
  forall n r, Dict.get n classified = Some r -> row_of hmdb_data kegg_data n = Ok r.

Module SamplePipeline.

Definition kegg_down : kegg_responses :=
  mkKegg Sample.timeout Sample.timeout Sample.timeout.

Definition hmdb_down : hmdb_responses :=
  mkHmdb Sample.timeout Sample.timeout.

(** One name; HMDB answers with a classified document, every KEGG request
    times out. *)
Definition glucose : list string := ["D-Glucose"].
Definition hmdb_up : nat -> hmdb_responses :=
  fun _ => SampleHmdb.found SampleHmdb.one_pathway.
Definition kegg_timeouts : nat -> kegg_responses := fun _ => kegg_down.

(** One name; the HMDB document has an empty [super_class] element and
    the KEGG search times out. *)
Definition hmdb_empty_super_class : nat -> hmdb_responses :=
  fun _ => SampleHmdb.found SampleHmdb.empty_super_class.

(** Three names, the first repeated at the end; HMDB is down for the first
    request and up afterwards, KEGG resolves only the second name. *)
Definition repeated : list string := ["D-Glucose"; "Quercetin"; "D-Glucose"].
Definition hmdb_recovering (i : nat) : hmdb_responses :=
  match i with
  | 0 => hmdb_down
  | _ => SampleHmdb.found SampleHmdb.one_pathway
  end.
Definition kegg_second_only (i : nat) : kegg_responses :=
  match i with
  | 1 => Sample.kegg_twice
  | _ => kegg_down
  end.

End SamplePipeline.

(** ** The result view of the page *)

(** The columns the page offers to show, in this order. *)
Definition display_candidates : list string :=
  ["final_type"; "super_class"; "hmdb_pathways"; "kegg_pathways"; "hmdb_id"; "kegg_id"].

(** The loop that fills [display_cols]: the candidates that are columns of
    the result table, in the order of the candidates. *)
Definition display_cols (columns : list string) : list string :=
  filter (fun col => existsb (String.eqb col) columns) display_candidates.

(** ** More sample answers *)

Module SampleMore.

(** A detail document with another root element. *)
Definition other_root : pyval :=
  VDict [("error", VDict [("message", VStr "Metabolite not found")])].

(** A detail document whose [pathway] element is empty. *)
Definition empty_pathway : pyval :=
  VDict [("metabolite",
    VDict [("accession", VStr "HMDB0000122");
           ("pathways", VDict [("pathway", VNone)])])].

Definition detail_404 : hmdb_responses :=
  mkHmdb Sample.search_200
         (Ok (mkResponse 404 "Not Found" "https://hmdb.ca/metabolites/HMDB0000122.xml"
                (Ok SampleHmdb.one_pathway))).

(** A pathway-link answer whose second line has no tab. *)
Definition link_broken : string :=
  "cpd:C00031" ++ String PyStr.tab ("path:map00010" ++
  String PyStr.newline ("<html>" ++ String PyStr.newline "")).

Definition kegg_link_broken : kegg_responses :=
  mkKegg (Sample.ok 200 Sample.find_text) (Sample.ok 200 "ENTRY       C00031")
         (Sample.ok 200 link_broken).

(** A detail answer of three lines. *)
Definition detail_text : string :=
  "ENTRY       C00031" ++ String PyStr.newline
  ("NAME        D-Glucose;" ++ String PyStr.newline "            Grape sugar").

End SampleMore.

(** The merged record of [hmdb] and [kegg] can be classified: [kegg] has a
    [type], or the super class of [hmdb] is a string (or absent). *)
Definition classifiable (hmdb kegg : pydict) : Prop :=
  (exists ty, Dict.get "type" kegg = Some ty) \/
  (exists s, Dict.get_default "super_class" (VStr "") hmdb = VStr s).

(** ** Reference notions for the table *)

(** [l1] is [l2] with some elements left out: same elements, same order. *)
Inductive subsequence {A : Type} : list A -> list A -> Prop :=
| subseq_nil : subsequence [] []
| subseq_skip x l1 l2 : subsequence l1 l2 -> subsequence l1 (x :: l2)
| subseq_keep x l1 l2 : subsequence l1 l2 -> subsequence (x :: l1) (x :: l2).

(** The row of [n] in [classified] has an [hmdb_id]: the HMDB record of the
    name was a [Found] record. *)
Definition has_hmdb_id (classified : Dict.t pydict) (n : string) : bool :=
  Dict.mem "hmdb_id" (Dict.get_default n [] classified).

(** The order of the rows of the table over the names [names]: when the
    first name has an [hmdb_id], the names that have one come first and the
    others after them, each group in the order of [names]; else the order
    of [names]. *)
Definition row_order (classified : Dict.t pydict) (names : list string) : list string :=
  match names with
  | [] => []
  | first :: _ =>
      if has_hmdb_id classified first
      then filter (has_hmdb_id classified) names ++
           filter (fun n => negb (has_hmdb_id classified n)) names
      else names
  end.

Module SampleTable.

(** Three names; HMDB has the first and the third, not the second; every
    KEGG request times out. *)
Definition names : list string := ["Alanine"; "Betaine"; "Citrate"].
Definition hmdb_first_and_third (i : nat) : hmdb_responses :=
  match i with
  | 1 => SamplePipeline.hmdb_down
  | _ => SampleHmdb.found SampleHmdb.one_pathway
  end.

End SampleTable.

Module SampleAnswering.

(** KEGG answers every request, with the same compound. *)
Definition kegg_answers : nat -> kegg_responses := fun _ => Sample.kegg_twice.

End SampleAnswering.

(** * Properties *)

(** ** Dictionaries *)

Module DictFacts.
Import Dict.
Section Facts.
Context {V : Type}.
Implicit Types (d e : Dict.t V) (k x : string) (v : V).

Lemma get_set_eq k v d : get k (set k v d) = Some v.
Proof.
  induction d as [|[k' v'] r IH]; simpl.
  - now rewrite String.eqb_refl.
  - destruct (String.eqb k k') eqn:E; simpl; rewrite E; auto.
Qed.

Lemma get_set_neq k x v d : k <> x -> get x (set k v d) = get x d.
Proof.
  intros N. induction d as [|[k' v'] r IH]; simpl.
  - destruct (String.eqb x k) eqn:E; auto.
    apply String.eqb_eq in E. congruence.
  - destruct (String.eqb k k') eqn:E; simpl.
    + apply String.eqb_eq in E. subst k'.
      destruct (String.eqb x k) eqn:E'; auto.
      apply String.eqb_eq in E'. congruence.
    + now rewrite IH.
Qed.

Lemma get_set k x v d :
  get x (set k v d) = if String.eqb x k then Some v else get x d.
Proof.
  destruct (String.eqb x k) eqn:E.
  - apply String.eqb_eq in E. subst. apply get_set_eq.
  - apply String.eqb_neq in E. apply get_set_neq. congruence.
Qed.

Lemma set_same k v d : get k d = Some v -> set k v d = d.
Proof.
  induction d as [|[k' v'] r IH]; simpl; [discriminate|].
  destruct (String.eqb k k') eqn:E; intros H.
  - congruence.
  - now rewrite IH.
Qed.

Lemma get_None_keys k d : get k d = None <-> ~ In k (keys d).
Proof.
  induction d as [|[k' v'] r IH]; simpl; [tauto|].
  destruct (String.eqb k k') eqn:E.
  - apply String.eqb_eq in E. subst. split; [discriminate | tauto].
  - apply String.eqb_neq in E. rewrite IH. split; [intros H [?|?]|]; try tauto; congruence.
Qed.

Lemma get_Some_keys k v d : get k d = Some v -> In k (keys d).
Proof.
  intros H. destruct (in_dec string_dec k (keys d)) as [?|N]; auto.
  apply get_None_keys in N. congruence.
Qed.

Lemma keys_get k d : In k (keys d) -> exists v, get k d = Some v.
Proof.
  intros H. destruct (get k d) eqn:E; eauto.
  apply get_None_keys in E. tauto.
Qed.

Lemma mem_keys k d : mem k d = true <-> In k (keys d).
Proof.
  unfold mem. split.
  - destruct (get k d) eqn:E; [|discriminate]. intros _. eapply get_Some_keys; eauto.
  - intros H. destruct (keys_get _ _ H) as [v ->]. reflexivity.
Qed.

Lemma keys_set k v d :
  keys (set k v d) = if mem k d then keys d else keys d ++ [k].
Proof.
  unfold mem. induction d as [|[k' v'] r IH]; simpl; auto.
  destruct (String.eqb k k') eqn:E; simpl; auto.
  rewrite IH. destruct (get k r); auto.
Qed.

Lemma keys_set_in k v d : In k (keys d) -> keys (set k v d) = keys d.
Proof. intros H. rewrite keys_set. apply mem_keys in H. now rewrite H. Qed.

Lemma in_keys_set k x v d : In x (keys (set k v d)) <-> x = k \/ In x (keys d).
Proof.
  rewrite keys_set. destruct (mem k d) eqn:E.
  - apply mem_keys in E. split; [tauto|]. intros [->|?]; auto.
  - rewrite in_app_iff. simpl. intuition congruence.
Qed.

Lemma NoDup_keys_set k v d : NoDup (keys d) -> NoDup (keys (set k v d)).
Proof.
  intros H. rewrite keys_set. destruct (mem k d) eqn:E; auto.
  assert (N : ~ In k (keys d)).
  { intros I. apply mem_keys in I. congruence. }
  clear E. induction (keys d) as [|a l IH]; simpl.
  - constructor; [tauto | constructor].
  - inversion H; subst. constructor.
    + rewrite in_app_iff. simpl in *. intuition.
    + apply IH; auto. simpl in N. tauto.
Qed.

(** Two updates of keys that are both present commute. *)
Lemma set_set_comm k x v w d :
  k <> x -> In x (keys d) -> set x w (set k v d) = set k v (set x w d).
Proof.
  intros N. induction d as [|[k' v'] r IH]; simpl; [tauto|].
  intros H.
  destruct (String.eqb k k') eqn:E1; destruct (String.eqb x k') eqn:E2; simpl;
    rewrite ?E1, ?E2; auto.
  - apply String.eqb_eq in E1, E2. congruence.
  - f_equal. apply IH. destruct H as [H|H]; auto.
    apply String.eqb_neq in E2. congruence.
Qed.

(** The binding of [k] that [update] leaves is the last one of [e]. *)
Lemma get_update k d e :
  get k (update d e) =
  match get k (rev e) with Some v => Some v | None => get k d end.
Proof.
  unfold update. revert d. induction e as [|[x v] e IH]; intros d; simpl; auto.
  rewrite IH. clear IH.
  assert (A : forall l, get k (l ++ [(x, v)]) =
              match get k l with Some w => Some w
              | None => if String.eqb k x then Some v else None end).
  { induction l as [|[a b] l IHl]; simpl; auto.
    destruct (String.eqb k a); auto. }
  rewrite A. destruct (get k (rev e)); auto.
  rewrite get_set. destruct (String.eqb k x); auto.
Qed.

Lemma get_rev_None k e : get k (rev e) = None <-> get k e = None.
Proof.
  rewrite !get_None_keys. unfold keys. rewrite map_rev, <- in_rev. tauto.
Qed.

Lemma get_rev_NoDup k e : NoDup (keys e) -> get k (rev e) = get k e.
Proof.
  induction e as [|[x v] e IH]; simpl; auto.
  intros H. inversion H as [|? ? Hn Hd]; subst.
  assert (A : forall l, get k (l ++ [(x, v)]) =
              match get k l with Some w => Some w
              | None => if String.eqb k x then Some v else None end).
  { induction l as [|[a b] l IHl]; simpl; auto.
    destruct (String.eqb k a); auto. }
  rewrite A, IH by auto.
  destruct (String.eqb k x) eqn:E.
  - apply String.eqb_eq in E. subst.
    apply get_None_keys in Hn. now rewrite Hn.
  - destruct (get k e); auto.
Qed.

Lemma in_keys_update k d e :
  In k (keys (update d e)) <-> In k (keys d) \/ In k (keys e).
Proof.
  unfold update. revert d. induction e as [|[x v] e IH]; intros d; simpl.
  - tauto.
  - rewrite IH, in_keys_set. intuition.
Qed.

Lemma NoDup_keys_update d e : NoDup (keys d) -> NoDup (keys (update d e)).
Proof.
  unfold update. revert d. induction e as [|[x v] e IH]; intros d H; simpl; auto.
  apply IH. now apply NoDup_keys_set.
Qed.

Lemma keys_update_incl d e :
  (forall k, In k (keys e) -> In k (keys d)) -> keys (update d e) = keys d.
Proof.
  unfold update. revert d. induction e as [|[x v] e IH]; intros d H; simpl; auto.
  rewrite IH.
  - apply keys_set_in. apply H. simpl. auto.
  - intros k I. apply in_keys_set. right. apply H. simpl. auto.
Qed.

Lemma update_set_comm k v d e :
  ~ In k (keys e) -> (forall x, In x (keys e) -> In x (keys d)) ->
  update (set k v d) e = set k v (update d e).
Proof.
  unfold update. revert d. induction e as [|[x w] e IH]; intros d N H; simpl; auto.
  simpl in N.
  rewrite set_set_comm.
  - apply IH; [tauto|]. intros y I. apply in_keys_set. right. apply H. simpl. auto.
  - intros ->. tauto.
  - apply H. simpl. auto.
Qed.

(** Dictionaries with the same keys in the same order and the same
    bindings are equal. *)
Lemma ext d e :
  NoDup (keys d) -> keys d = keys e -> (forall k, get k d = get k e) -> d = e.
Proof.
  revert e. induction d as [|[k v] d IH]; intros [|[k' v'] e] Hn Hk Hg;
    simpl in *; try discriminate; auto.
  injection Hk as -> Hk. inversion Hn as [|? ? Hx Hd]; subst.
  pose proof (Hg k') as G. rewrite String.eqb_refl in G. injection G as ->.
  f_equal. apply IH; auto.
  intros x. specialize (Hg x). destruct (String.eqb x k') eqn:E; auto.
  apply String.eqb_eq in E. subst x.
  assert (A : get k' d = None) by now apply get_None_keys.
  assert (B : get k' e = None) by (apply get_None_keys; now rewrite <- Hk).
  congruence.
Qed.
End Facts.
End DictFacts.

(** ** Strings *)

Module TextFacts.
Import Text.

Lemma split_unfold c s :
  PyStr.split c s =
  take_until (same c) s ::
  (if has (same c) s then PyStr.split c (after_first (same c) s) else []).
Proof.
  induction s as [|x r IH]; simpl; auto.
  unfold same at 1 3 5. destruct (Ascii.eqb x c) eqn:E; simpl; auto.
  rewrite IH. reflexivity.
Qed.

Lemma split_without c s : has (same c) s = false -> PyStr.split c s = [s].
Proof.
  induction s as [|x r IH]; simpl; auto.
  unfold same at 1. destruct (Ascii.eqb x c); simpl; [discriminate|].
  intros H. now rewrite IH.
Qed.

Lemma split_app c a b :
  has (same c) a = false ->
  PyStr.split c (a ++ String c b) = a :: PyStr.split c b.
Proof.
  induction a as [|x r IH]; simpl.
  - now rewrite Ascii.eqb_refl.
  - unfold same at 1. destruct (Ascii.eqb x c); simpl; [discriminate|].
    intros H. now rewrite IH.
Qed.

Lemma re_split_space1_unfold s :
  PyStr.re_split_space1 s =
  if has PyStr.isspace s
  then [take_until PyStr.isspace s; PyStr.lstrip_space (after_first PyStr.isspace s)]
  else [s].
Proof.
  induction s as [|c r IH]; simpl; auto.
  destruct (PyStr.isspace c); simpl; auto.
  rewrite IH. destruct (has PyStr.isspace r); reflexivity.
Qed.

Lemma contains_false_tail p c s :
  PyStr.contains p (String c s) = false ->
  PyStr.startswith p (String c s) = false /\ PyStr.contains p s = false.
Proof. simpl PyStr.contains. intros H. now apply orb_false_iff in H. Qed.

Lemma replace_absent old new s :
  PyStr.contains old s = false -> PyStr.replace_from old new 0 s = s.
Proof.
  induction s as [|c r IH]; auto.
  intros H. apply contains_false_tail in H. destruct H as [H1 H2].
  cbn [PyStr.replace_from]. rewrite H1, IH; auto.
Qed.

Lemma startswith_lower p s :
  PyStr.startswith (PyStr.lower p) (PyStr.lower s) = ci_startswith p s.
Proof.
  revert s. induction p as [|a p IH]; intros [|b s]; simpl; auto.
  now rewrite IH.
Qed.

Lemma contains_lower p s :
  PyStr.contains (PyStr.lower p) (PyStr.lower s) = ci_contains p s.
Proof.
  induction s as [|b s IH].
  - simpl. now rewrite <- (startswith_lower p "").
  - cbn [PyStr.contains ci_contains PyStr.lower].
    change (String (PyStr.lower_char b) (PyStr.lower s)) with (PyStr.lower (String b s)).
    rewrite startswith_lower. cbn [PyStr.lower]. now rewrite IH.
Qed.

End TextFacts.

(** ** [search_hmdb_id] *)

Lemma search_hmdb_id_not_200 (r : response (result pyval)) :
  status_code r <> 200%Z -> search_hmdb_id (Ok r) = VNone.
Proof.
  intros H. unfold search_hmdb_id, search_hmdb_id_try. simpl.
  apply Z.eqb_neq in H. now rewrite H.
Qed.

Lemma search_hmdb_id_transport e : search_hmdb_id (Raise e) = VNone.
Proof. reflexivity. Qed.

Lemma search_hmdb_id_bad_json (r : response (result pyval)) e :
  body r = Raise e -> search_hmdb_id (Ok r) = VNone.
Proof.
  intros H. unfold search_hmdb_id, search_hmdb_id_try. simpl.
  destruct (status_code r =? 200)%Z; auto. now rewrite H.
Qed.

(** C9, as the specification words it, fails: under status 203, which is a
    2xx status, an answer with a non-empty [metabolites] list does not give
    the identifier of its first match. *)
Lemma search_hmdb_id_203_not_found :
  (200 <= 203 < 300)%Z /\
  search_hmdb_id_try Sample.search_203 = Ok VNone /\
  search_hmdb_id Sample.search_203 <> VStr "HMDB0000122" /\
  search_hmdb_id Sample.search_200 = VStr "HMDB0000122".
Proof.
  split; [lia|]. split; [reflexivity|]. split; [|reflexivity].
  vm_compute. discriminate.
Qed.

(** C9, amended: when the status is exactly 200 and the parsed body has a
    non-empty [metabolites] list whose first element exposes [hmdb_id],
    [search_hmdb_id] returns that identifier; and it returns something other
    than [None] in no other case, whatever the transport, the status or the
    body were. *)
Theorem search_hmdb_id_first_match :
  (forall (r : response (result pyval)) data m rest id,
      status_code r = 200%Z ->
      body r = Ok (VDict data) ->
      Dict.get "metabolites" data = Some (VList (VDict m :: rest)) ->
      Dict.get "hmdb_id" m = Some id ->
      search_hmdb_id (Ok r) = id) /\
  (forall get,
      search_hmdb_id get <> VNone ->
      exists r data m rest,
        get = Ok r /\ status_code r = 200%Z /\ body r = Ok (VDict data) /\
        Dict.get "metabolites" data = Some (VList (VDict m :: rest)) /\
        Dict.get "hmdb_id" m = Some (search_hmdb_id get)).
Proof.
  split.
  - intros r data m rest id Hs Hb Hm Hi.
    unfold search_hmdb_id, search_hmdb_id_try. simpl.
    rewrite Hs, Hb. simpl. rewrite Hm. simpl. now rewrite Hi.
  - intros [r|e] H; [|now contradiction H].
    unfold search_hmdb_id, search_hmdb_id_try in *. simpl in *.
    destruct (status_code r =? 200)%Z eqn:Hs; [|now contradiction H].
    apply Z.eqb_eq in Hs.
    destruct (body r) as [data|e] eqn:Hb; [|now contradiction H].
    simpl in *.
    destruct data as [| | | | |data]; try now contradiction H.
    simpl in *.
    destruct (Dict.get "metabolites" data) as [ms|] eqn:Hm; [|now contradiction H].
    simpl in *.
    destruct ms as [| | |s|l|d]; simpl in *; try now contradiction H.
    + destruct b; simpl in *; now contradiction H.
    + destruct (negb (z =? 0)%Z); simpl in *; now contradiction H.
    + destruct s; simpl in *; now contradiction H.
    + destruct l as [|x l]; simpl in *; [now contradiction H|].
      destruct x as [| | | | |m]; simpl in *; try now contradiction H.
      destruct (Dict.get "hmdb_id" m) as [id|] eqn:Hi; [|now contradiction H].
      exists r, data, m, l. auto.
    + destruct d; simpl in *; now contradiction H.
Qed.

Lemma search_hmdb_id_first_match_witness :
  search_hmdb_id Sample.search_200 = VStr "HMDB0000122" /\
  exists r data m rest,
    Sample.search_200 = Ok r /\ status_code r = 200%Z /\ body r = Ok (VDict data) /\
    Dict.get "metabolites" data = Some (VList (VDict m :: rest)) /\
    Dict.get "hmdb_id" m = Some (search_hmdb_id Sample.search_200).
Proof.
  split.
  - apply (proj1 search_hmdb_id_first_match
             (mkResponse 200%Z "" "" (Ok Sample.search_json)) _ _ _ _
             eq_refl eq_refl eq_refl eq_refl).
  - apply (proj2 search_hmdb_id_first_match Sample.search_200).
    vm_compute. discriminate.
Defined.

(** ** [get_kegg_id] *)

Section GetKeggId.
Import Text TextFacts.

Lemma second_split_colon tok :
  match second (PyStr.split PyStr.colon tok) with
  | Ok x => between_colons tok = Some x
  | Raise _ => between_colons tok = None
  end.
Proof.
  unfold between_colons. rewrite split_unfold.
  destruct (has (same PyStr.colon) tok); simpl; auto.
  now rewrite split_unfold.
Qed.

Lemma kegg_id_of_line_spec line :
  match kegg_id_of_line line with
  | Ok x => has PyStr.isspace line = true /\
            between_colons (take_until PyStr.isspace line) = Some x
  | Raise _ => has PyStr.isspace line = false \/
               between_colons (take_until PyStr.isspace line) = None
  end.
Proof.
  unfold kegg_id_of_line. rewrite re_split_space1_unfold.
  destruct (has PyStr.isspace line); [|now left].
  pose proof (second_split_colon (take_until PyStr.isspace line)) as H.
  destruct (second _); auto.
Qed.

Lemma scan_lines_spec lines :
  match find PyStr.nonempty lines with
  | None => scan_lines lines = Ok None
  | Some line => scan_lines lines = (x <- kegg_id_of_line line ;; Ok (Some x))
  end.
Proof.
  induction lines as [|l r IH]; simpl; auto.
  destruct (PyStr.nonempty l); auto.
Qed.

Lemma find_after_newlines n s :
  find PyStr.nonempty (PyStr.split PyStr.newline (newlines n ++ s)) =
  find PyStr.nonempty (PyStr.split PyStr.newline s).
Proof. induction n as [|n IH]; simpl; auto. Qed.

Lemma first_line_found n line rest :
  PyStr.nonempty line = true ->
  has (same PyStr.newline) line = false ->
  first_nonempty_line (newlines n ++ line ++ String PyStr.newline rest) = Some line.
Proof.
  intros Hn Hl. unfold first_nonempty_line.
  rewrite find_after_newlines, split_app by assumption.
  simpl. now rewrite Hn.
Qed.

Lemma get_kegg_id_refines get : get_kegg_id get = kegg_id_spec get.
Proof.
  destruct get as [r|e]; [|reflexivity].
  unfold get_kegg_id, get_kegg_id_try, kegg_id_spec, first_nonempty_line. simpl.
  destruct (status_code r =? 200)%Z; [|reflexivity]. simpl.
  destruct (body r) as [|c text] eqn:Hb; [reflexivity|].
  cbn [PyStr.nonempty].
  pose proof (scan_lines_spec (PyStr.split PyStr.newline (String c text))) as H.
  destruct (find PyStr.nonempty _) as [line|]; rewrite H; [|reflexivity].
  pose proof (kegg_id_of_line_spec line) as K.
  destruct (kegg_id_of_line line) as [x|e]; simpl.
  - destruct K as [-> ->]. reflexivity.
  - destruct K as [-> | K]; [reflexivity|].
    destruct (has PyStr.isspace line); auto.
Qed.
End GetKeggId.

(** C10: [get_kegg_id] is a total function into [option string]; its value
    is decided by the first non-empty line alone, and is the text between
    the first and the second colon of the token before the first whitespace
    of that line. When that line has no whitespace, or its token has no
    colon, the value is [None] whatever the later lines are. *)
Theorem get_kegg_id_first_line :
  (forall get, get_kegg_id get = kegg_id_spec get) /\
  (forall (r : response string) (n : nat) (line rest : string),
      body r = (Text.newlines n ++ line ++ String PyStr.newline rest)%string ->
      PyStr.nonempty line = true ->
      Text.has (Text.same PyStr.newline) line = false ->
      Text.has PyStr.isspace line = false \/
      Text.has (Text.same PyStr.colon) (Text.take_until PyStr.isspace line) = false ->
      get_kegg_id (Ok r) = None).
Proof.
  split; [exact get_kegg_id_refines|].
  intros r n line rest Hb Hn Hl Hm. rewrite get_kegg_id_refines.
  unfold kegg_id_spec. destruct (status_code r =? 200)%Z; [|reflexivity].
  rewrite Hb, first_line_found by assumption.
  unfold between_colons. destruct Hm as [-> | Hm]; [reflexivity|].
  rewrite Hm. now destruct (Text.has PyStr.isspace line).
Qed.

Lemma get_kegg_id_first_line_witness :
  get_kegg_id (Sample.ok 200 Sample.find_text) = Some "C00031" /\
  get_kegg_id (Sample.ok 200 Sample.find_garbled) = None.
Proof.
  split.
  - rewrite (proj1 get_kegg_id_first_line). reflexivity.
  - apply (proj2 get_kegg_id_first_line
             (mkResponse 200%Z "" "" Sample.find_garbled) 0 "<html>" Sample.find_text);
      [reflexivity | reflexivity | reflexivity | left; reflexivity].
Defined.

(** ** [query_kegg]: the pathway list and the status of the fetches *)

Section KeggPathways.
Import Text TextFacts.

Lemma has_app p (a b : string) : has p (a ++ b)%string = has p a || has p b.
Proof. induction a as [|c a IH]; simpl; auto. now rewrite IH, orb_assoc. Qed.

Lemma app_assoc' (a b c : string) : (a ++ (b ++ c) = (a ++ b) ++ c)%string.
Proof. induction a as [|x a IH]; simpl; auto. now rewrite IH. Qed.

Lemma nonempty_app_cons (a : string) c b :
  PyStr.nonempty (a ++ String c b)%string = true.
Proof. now destruct a. Qed.

Lemma strip_path_prefix code :
  PyStr.contains "path:" code = false ->
  PyStr.replace "path:" "" ("path:" ++ code)%string = code.
Proof. intros H. unfold PyStr.replace. simpl. now apply replace_absent. Qed.

Lemma link_line compound code :
  link_entry_ok (compound, code) ->
  (x <- second (PyStr.split PyStr.tab (compound ++ String PyStr.tab ("path:" ++ code))%string) ;;
   Ok (PyStr.replace "path:" "" x)) = Ok code.
Proof.
  intros (Ht & _ & Hc & _ & Hp). simpl in Ht, Hc, Hp.
  rewrite split_app by assumption.
  rewrite split_without by (rewrite has_app, Hc; reflexivity).
  cbn [second bind]. now rewrite strip_path_prefix.
Qed.

Lemma kegg_pathways_payload entries :
  Forall link_entry_ok entries ->
  kegg_pathways (link_payload entries) = Ok (map snd entries).
Proof.
  unfold kegg_pathways.
  induction 1 as [|[compound code] r Hx Hr IH]; [reflexivity|].
  cbn [link_payload map snd].
  pose proof Hx as (Ht & Hn & Hc & Hm & Hp). simpl in Ht, Hn, Hc, Hm, Hp.
  rewrite app_assoc', split_app.
  - cbn [filter]. rewrite nonempty_app_cons. cbn [mapM].
    rewrite link_line by assumption. cbn [bind]. rewrite IH. reflexivity.
  - rewrite has_app, Hn. cbn [has]. rewrite has_app, Hm. reflexivity.
Qed.
End KeggPathways.

(** C4, as the specification words it, fails: the pathway codes are kept in
    a list, and a code that two lines of the payload name appears twice. *)
Lemma kegg_pathways_duplicates_kept :
  Dict.get "kegg_pathways" (kegg_item Sample.kegg_twice) =
    Some (VList [VStr "map00010"; VStr "map00010"; VStr "map00030"]) /\
  ~ NoDup [VStr "map00010"; VStr "map00010"; VStr "map00030"].
Proof.
  split; [reflexivity|].
  intros H. inversion H as [|? ? Hn _]. apply Hn. now left.
Qed.

(** C4, amended: for a resolved identifier whose two fetches return, the
    record holds the pathway codes of the payload (the component after the
    tab of each non-empty line, [path:] removed) as a list with one element
    per line, in the order of the lines, repeated codes included. *)
Theorem kegg_pathways_listed_in_line_order :
  forall (w : kegg_responses) (kegg_id : string) (info path : response string)
         (entries : list (string * string)),
    get_kegg_id (kegg_find w) = Some kegg_id ->
    PyStr.nonempty kegg_id = true ->
    kegg_get w = Ok info ->
    kegg_link w = Ok path ->
    body path = link_payload entries ->
    Forall link_entry_ok entries ->
    kegg_pathways (body path) = Ok (map snd entries) /\
    Dict.get "kegg_pathways" (kegg_item w) =
      Some (VList (map (fun e => VStr (snd e)) entries)).
Proof.
  intros w kegg_id info path entries Hid Hne Hinfo Hpath Hbody Hok.
  assert (P : kegg_pathways (body path) = Ok (map snd entries)).
  { rewrite Hbody. now apply kegg_pathways_payload. }
  split; [exact P|].
  unfold kegg_item. rewrite Hid.
  destruct kegg_id as [|c k]; [discriminate|].
  unfold kegg_fetch. rewrite Hinfo, Hpath. cbn [bind]. rewrite P. cbn [bind].
  cbn. now rewrite map_map.
Qed.

Lemma kegg_pathways_listed_in_line_order_witness :
  kegg_pathways Sample.link_twice = Ok ["map00010"; "map00010"; "map00030"] /\
  Dict.get "kegg_pathways" (kegg_item Sample.kegg_twice) =
    Some (VList [VStr "map00010"; VStr "map00010"; VStr "map00030"]).
Proof.
  apply (kegg_pathways_listed_in_line_order Sample.kegg_twice "C00031"
           (mkResponse 200%Z "" "" "ENTRY       C00031")
           (mkResponse 200%Z "" "" Sample.link_twice)
           [("cpd:C00031", "map00010"); ("cpd:C00031", "map00010");
            ("cpd:C00031", "map00030")]);
    try reflexivity.
  repeat constructor.
Defined.

(** The status of the detail and pathway-link answers plays no part in
    [query_kegg]: only their text is read. *)
Lemma kegg_item_ignores_status find (g l : response string) s1 s2 :
  kegg_item (mkKegg find (Ok g) (Ok l)) =
  kegg_item (mkKegg find (Ok (mkResponse s1 (reason g) (url g) (body g)))
                         (Ok (mkResponse s2 (reason l) (url l) (body l)))).
Proof. reflexivity. Qed.

(** C5 fails on the code: with the identifier resolved and status 503 on
    the detail fetch, the record is a [Found] record built from the error
    page, with type [primary]; no error status is recorded. *)
Theorem kegg_detail_503_recorded_as_found :
  (400 <= 503 < 600)%Z /\
  kegg_item Sample.kegg_detail_503 =
    [("kegg_id", VStr "C00031");
     ("type", VStr "primary");
     ("kegg_pathways", VList [VStr "map00010"]);
     ("description", VStr "");
     ("kegg_status", VStr "Found")].
Proof. split; [lia | reflexivity]. Qed.

(** ** [query_hmdb]: the pathway list *)

Lemma pathway_names_list l : pathway_names (VList l) = Ok (entry_names l).
Proof.
  unfold pathway_names. simpl.
  induction l as [|x l IH]; [reflexivity|].
  destruct x; simpl; auto; now rewrite IH.
Qed.

Lemma pathway_names_single d :
  pathway_names (normalize_pathways (VDict d)) = Ok [Dict.get_default "name" (VStr "") d].
Proof. reflexivity. Qed.

Lemma py_get_is_dict v k dflt :
  is_dict v = true -> exists d, v = VDict d /\ py_get v k dflt = Ok (Dict.get_default k dflt d).
Proof. destruct v; try discriminate. eauto. Qed.

(** C7: in a detail document that is read without error, a [pathway]
    value that is a single object gives a pathway list of one element, the
    [name] of the object; a [pathway] value that is a list gives the names
    of its entries that are objects, in order, the other entries left out. *)
Theorem hmdb_pathways_normalized :
  forall (w : hmdb_responses) (r : response (result pyval)) data info pw p,
    truthy (search_hmdb_id (hmdb_search w)) = true ->
    hmdb_detail w = Ok r ->
    raise_for_status r = Ok tt ->
    body r = Ok (VDict data) ->
    Dict.get "metabolite" data = Some (VDict info) ->
    is_dict (Dict.get_default "classification" (VDict []) info) = true ->
    Dict.get "pathways" info = Some (VDict pw) ->
    Dict.get "pathway" pw = Some p ->
    (forall d, p = VDict d ->
       Dict.get "hmdb_status" (hmdb_item w) = Some (VStr "Found") /\
       Dict.get "hmdb_pathways" (hmdb_item w) =
         Some (VList [Dict.get_default "name" (VStr "") d])) /\
    (forall l, p = VList l ->
       Dict.get "hmdb_status" (hmdb_item w) = Some (VStr "Found") /\
       Dict.get "hmdb_pathways" (hmdb_item w) = Some (VList (entry_names l))).
Proof.
  intros w r data info pw p Hid Hd Hs Hb Hm Hc Hpw Hp.
  destruct (py_get_is_dict _ "super_class" (VStr "Unknown") Hc) as (c & Ec & _).
  assert (F : forall names, pathway_names (normalize_pathways p) = Ok names ->
              hmdb_item w =
              [("hmdb_id", search_hmdb_id (hmdb_search w));
               ("super_class", Dict.get_default "super_class" (VStr "Unknown") c);
               ("class", Dict.get_default "class" (VStr "Unknown") c);
               ("sub_class", Dict.get_default "sub_class" (VStr "Unknown") c);
               ("hmdb_pathways", VList names);
               ("hmdb_status", VStr "Found")]).
  { intros names Hn. unfold hmdb_item. rewrite Hid. cbn [negb].
    unfold hmdb_fetch. rewrite Hd. cbn [bind]. rewrite Hs, Hb. cbn [bind].
    unfold py_get at 1. unfold Dict.get_default at 1. rewrite Hm. cbn [bind].
    unfold py_get at 1. rewrite Ec. cbn [bind].
    unfold py_get at 1. unfold Dict.get_default at 1. rewrite Hpw. cbn [bind].
    unfold py_get at 1. unfold Dict.get_default at 1. rewrite Hp. cbn [bind].
    cbn [py_get bind]. rewrite Hn. reflexivity. }
  split.
  - intros d ->. rewrite (F _ (pathway_names_single d)). split; reflexivity.
  - intros l ->. rewrite (F _ (pathway_names_list l)). split; reflexivity.
Qed.

Lemma hmdb_pathways_normalized_witness :
  (Dict.get "hmdb_status" (hmdb_item (SampleHmdb.found SampleHmdb.one_pathway)) =
     Some (VStr "Found") /\
   Dict.get "hmdb_pathways" (hmdb_item (SampleHmdb.found SampleHmdb.one_pathway)) =
     Some (VList [VStr "Glycolysis"])) /\
  (Dict.get "hmdb_status" (hmdb_item (SampleHmdb.found SampleHmdb.mixed_pathways)) =
     Some (VStr "Found") /\
   Dict.get "hmdb_pathways" (hmdb_item (SampleHmdb.found SampleHmdb.mixed_pathways)) =
     Some (VList [VStr "Glycolysis"; VStr ""])).
Proof.
  split.
  - refine (proj1 (hmdb_pathways_normalized
                     (SampleHmdb.found SampleHmdb.one_pathway)
                     (mkResponse 200%Z "" "" (Ok SampleHmdb.one_pathway))
                     _ _ _ _ eq_refl eq_refl eq_refl eq_refl eq_refl eq_refl eq_refl eq_refl)
                  _ eq_refl).
  - refine (proj2 (hmdb_pathways_normalized
                     (SampleHmdb.found SampleHmdb.mixed_pathways)
                     (mkResponse 200%Z "" "" (Ok SampleHmdb.mixed_pathways))
                     _ _ _ _ eq_refl eq_refl eq_refl eq_refl eq_refl eq_refl eq_refl eq_refl)
                  _ eq_refl).
Defined.

(** ** The classifier *)

Lemma contains_keyword kw s :
  PyStr.lower kw = kw -> PyStr.contains kw (PyStr.lower s) = Text.ci_contains kw s.
Proof. intros H. rewrite <- TextFacts.contains_lower. now rewrite H. Qed.

Lemma any_in_primary s :
  any_in primary_keywords (PyStr.lower s) =
  existsb (fun k => Text.ci_contains k s) ["lipid"; "organic acid"; "nucleoside"].
Proof.
  unfold any_in, primary_keywords. cbn [existsb].
  now rewrite !contains_keyword by reflexivity.
Qed.

Lemma any_in_secondary s :
  any_in secondary_keywords (PyStr.lower s) =
  existsb (fun k => Text.ci_contains k s) ["flavonoid"; "alkaloid"; "terpene"].
Proof.
  unfold any_in, secondary_keywords. cbn [existsb].
  now rewrite !contains_keyword by reflexivity.
Qed.

Lemma set_final_type_typed record ty :
  Dict.get "type" record = Some ty ->
  set_final_type record = Ok (Dict.set "final_type" ty record).
Proof. intros H. unfold set_final_type. now rewrite H. Qed.

Lemma set_final_type_untyped record s :
  Dict.get "type" record = None ->
  Dict.get_default "super_class" (VStr "") record = VStr s ->
  set_final_type record = Ok (Dict.set "final_type" (VStr (heuristic_type s)) record).
Proof.
  intros Ht Hs. unfold set_final_type, heuristic_type. rewrite Ht, Hs.
  cbn [py_lower bind]. rewrite any_in_primary, any_in_secondary.
  destruct (existsb _ ["lipid"; "organic acid"; "nucleoside"]); auto.
  destruct (existsb _ ["flavonoid"; "alkaloid"; "terpene"]); auto.
Qed.

(** C6: on a merged record without [type] whose super class is a string
    (the empty string when the field is absent), [final_type] is [primary]
    when the super class contains, up to case, one of "lipid", "organic
    acid", "nucleoside"; else [secondary] when it contains one of
    "flavonoid", "alkaloid", "terpene"; else [unknown]. "Flavonoid
    glycoside" gives [secondary] and "Unknown" gives [unknown]. *)
Theorem super_class_keyword_rule :
  (forall (record : pydict) (s : string),
      Dict.get "type" record = None ->
      Dict.get_default "super_class" (VStr "") record = VStr s ->
      set_final_type record = Ok (Dict.set "final_type" (VStr (heuristic_type s)) record) /\
      Dict.get "final_type" (Dict.set "final_type" (VStr (heuristic_type s)) record)
        = Some (VStr (heuristic_type s))) /\
  heuristic_type "Flavonoid glycoside" = "secondary" /\
  heuristic_type "Unknown" = "unknown" /\
  heuristic_type "" = "unknown".
Proof.
  split; [|repeat split; reflexivity].
  intros record s Ht Hs. split.
  - now apply set_final_type_untyped.
  - apply DictFacts.get_set_eq.
Qed.

Lemma super_class_keyword_rule_witness :
  set_final_type SampleRecord.flavonoid =
    Ok (Dict.set "final_type" (VStr "secondary") SampleRecord.flavonoid).
Proof.
  apply (proj1 (proj1 super_class_keyword_rule SampleRecord.flavonoid
                  "Flavonoid glycoside" eq_refl eq_refl)).
Defined.

(** ** Loops that fill a dictionary *)

Module LoopFacts.
Import Dict DictFacts.

Section Update.
Context {V : Type}.
Implicit Types (d e : Dict.t V) (k : string) (v : V).

Lemma get_in k v d : get k d = Some v -> In (k, v) d.
Proof.
  induction d as [|[x w] d IH]; simpl; [discriminate|].
  destruct (String.eqb k x) eqn:E.
  - apply String.eqb_eq in E. intros [= ->]. subst. now left.
  - auto.
Qed.

Lemma get_update_absent k d e :
  ~ In k (keys e) -> get k (update d e) = get k d.
Proof.
  intros N. rewrite get_update.
  assert (A : get k (rev e) = None) by (apply get_rev_None; now apply get_None_keys).
  now rewrite A.
Qed.

Lemma get_update_cons k d x v e :
  get k (update d ((x, v) :: e)) = get k (update (set x v d) e).
Proof. reflexivity. Qed.

(** The binding that survives is the one assigned last. *)
Lemma get_update_last e : forall d j k v,
  nth_error e j = Some (k, v) ->
  (forall j' v', j < j' -> nth_error e j' <> Some (k, v')) ->
  get k (update d e) = Some v.
Proof.
  induction e as [|[x w] e IH]; intros d j k v Hj Hl.
  - now destruct j.
  - rewrite get_update_cons. destruct j as [|j]; simpl in Hj.
    + injection Hj as -> ->.
      rewrite get_update_absent; [apply get_set_eq|].
      intros I. apply in_map_iff in I. destruct I as ([k' v'] & E & I). simpl in E. subst k'.
      apply In_nth_error in I. destruct I as [i I].
      apply (Hl (S i) v'); [lia | exact I].
    + apply (IH _ j); auto.
      intros j' v' L. apply (Hl (S j') v'). lia.
Qed.

Lemma get_update_origin k v d e :
  get k (update d e) = Some v -> get k d = Some v \/ In (k, v) e.
Proof.
  rewrite get_update. destruct (get k (rev e)) eqn:E; auto.
  intros [= ->]. right. apply get_in in E. now apply in_rev.
Qed.

Lemma filter_filter {A} (p q : A -> bool) l :
  filter p (filter q l) = filter (fun x => q x && p x) l.
Proof.
  induction l as [|a l IH]; simpl; auto.
  destruct (q a); simpl; [destruct (p a)|]; now rewrite IH.
Qed.

(** New keys are appended in the order of their first assignment. *)
Lemma keys_update e : forall d,
  keys (update d e) = keys d ++ filter (fun y => negb (mem y d)) (uniq (keys e)).
Proof.
  induction e as [|[x w] e IH]; intros d.
  - simpl. now rewrite app_nil_r.
  - change (update d ((x, w) :: e)) with (update (set x w d) e).
    rewrite IH. cbn [keys map fst uniq filter]. fold (keys e).
    rewrite filter_filter, keys_set.
    assert (M : forall y, mem y (set x w d) = String.eqb y x || mem y d).
    { intros y. unfold mem. rewrite get_set. destruct (String.eqb y x); auto. }
    destruct (mem x d) eqn:E; cbn [negb].
    + apply f_equal. apply filter_ext. intros y. rewrite M.
      destruct (String.eqb y x); simpl; auto.
    + rewrite <- app_assoc. simpl. do 2 apply f_equal.
      apply filter_ext. intros y. rewrite M.
      destruct (String.eqb y x); simpl; auto.
Qed.
End Update.

Lemma uniq_in l x : In x (uniq l) <-> In x l.
Proof.
  induction l as [|a l IH]; simpl; [tauto|].
  rewrite filter_In, IH. destruct (String.eqb x a) eqn:E.
  - apply String.eqb_eq in E. subst. simpl. intuition discriminate.
  - apply String.eqb_neq in E. simpl. intuition congruence.
Qed.

Lemma uniq_NoDup l : NoDup (uniq l).
Proof.
  induction l as [|a l IH]; simpl; constructor.
  - rewrite filter_In, String.eqb_refl. simpl. intros [_ H]. discriminate.
  - now apply NoDup_filter.
Qed.

(** A list without repetition is its own list of first occurrences. *)
Lemma uniq_NoDup_id l : NoDup l -> uniq l = l.
Proof.
  induction 1 as [|a l N _ IH]; simpl; auto.
  rewrite IH. f_equal. apply forallb_filter_id. apply forallb_forall.
  intros y I. destruct (String.eqb y a) eqn:E; auto.
  apply String.eqb_eq in E. subst. tauto.
Qed.

Lemma keys_update_empty {V} (e : Dict.t V) : keys (update [] e) = uniq (keys e).
Proof.
  rewrite keys_update. simpl. apply forallb_filter_id. now apply forallb_forall.
Qed.

Section Assignments.
Context {V : Type} (f : nat -> V).

Lemma keys_assignments i0 l : keys (assignments f i0 l) = l.
Proof. revert i0. induction l as [|a l IH]; intros i0; simpl; auto. now rewrite IH. Qed.

Lemma nth_assignments l : forall i0 j,
  nth_error (assignments f i0 l) j =
  option_map (fun n => (n, f (i0 + j))) (nth_error l j).
Proof.
  induction l as [|a l IH]; intros i0 [|j]; simpl; auto.
  - now rewrite Nat.add_0_r.
  - rewrite IH. now rewrite Nat.add_succ_r.
Qed.

Lemma in_assignments l : forall i0 n v,
  In (n, v) (assignments f i0 l) -> exists i, v = f i.
Proof.
  induction l as [|a l IH]; intros i0 n v; simpl; [tauto|].
  intros [[= _ <-]|I]; eauto.
Qed.

Lemma get_assignments_last l j n :
  last_at l j n -> get n (update [] (assignments f 0 l)) = Some (f j).
Proof.
  intros [Hj Hl]. apply (get_update_last _ _ j).
  - rewrite nth_assignments, Hj. reflexivity.
  - intros j' v' L. rewrite nth_assignments.
    destruct (nth_error l j') as [m|] eqn:E; simpl; [|discriminate].
    intros [= -> _]. now apply (Hl j').
Qed.
End Assignments.

End LoopFacts.

(** ** The records of the two query loops *)

Ltac bind_ok H :=
  repeat match type of H with
         | bind ?x _ = Ok _ =>
             let E := fresh "E" in
             destruct x eqn:E; cbn [bind] in H; [|discriminate H]
         end.

Lemma hmdb_item_shape w : hmdb_shape (hmdb_item w).
Proof.
  unfold hmdb_item, hmdb_shape.
  destruct (negb (truthy (search_hmdb_id (hmdb_search w)))); [left; eauto|].
  destruct (hmdb_fetch _ w) as [r|e] eqn:F; [right|left; eauto].
  unfold hmdb_fetch in F. bind_ok F. injection F as <-. eauto 10.
Qed.

Lemma kegg_item_shape w : kegg_shape (kegg_item w).
Proof.
  unfold kegg_item, kegg_shape.
  destruct (get_kegg_id (kegg_find w)) as [[|c id]|]; [left; eauto| |left; eauto].
  destruct (kegg_fetch _ w) as [r|e] eqn:F; [right|left; eauto].
  unfold kegg_fetch in F. bind_ok F. injection F as <-.
  do 4 eexists. split; [|reflexivity].
  destruct (PyStr.contains "Secondary metabolites" _); auto.
Qed.

Lemma query_hmdb_loop_update w ms : forall i0 results,
  query_hmdb_loop w i0 ms results =
  Dict.update results (assignments (fun i => hmdb_item (w i)) i0 ms).
Proof. induction ms as [|m ms IH]; intros i0 r; simpl; auto. Qed.

Lemma query_kegg_loop_update w ms : forall i0 results,
  query_kegg_loop w i0 ms results =
  Dict.update results (assignments (fun i => kegg_item (w i)) i0 ms).
Proof. induction ms as [|m ms IH]; intros i0 r; simpl; auto. Qed.

Lemma query_hmdb_last w ms j n :
  last_at ms j n -> Dict.get n (query_hmdb w ms) = Some (hmdb_item (w j)).
Proof.
  intros H. unfold query_hmdb. rewrite query_hmdb_loop_update.
  now apply (LoopFacts.get_assignments_last (fun i => hmdb_item (w i))).
Qed.

Lemma query_kegg_last w ms j n :
  last_at ms j n -> Dict.get n (query_kegg w ms) = Some (kegg_item (w j)).
Proof.
  intros H. unfold query_kegg. rewrite query_kegg_loop_update.
  now apply (LoopFacts.get_assignments_last (fun i => kegg_item (w i))).
Qed.

Lemma query_hmdb_keys w ms : Dict.keys (query_hmdb w ms) = uniq ms.
Proof.
  unfold query_hmdb. rewrite query_hmdb_loop_update, LoopFacts.keys_update_empty.
  now rewrite LoopFacts.keys_assignments.
Qed.

Lemma query_hmdb_value w ms n :
  Dict.get_default n [] (query_hmdb w ms) = [] \/
  hmdb_shape (Dict.get_default n [] (query_hmdb w ms)).
Proof.
  unfold Dict.get_default, query_hmdb. rewrite query_hmdb_loop_update.
  destruct (Dict.get n _) as [r|] eqn:E; [right|now left].
  apply LoopFacts.get_update_origin in E. destruct E as [E|E]; [discriminate|].
  apply LoopFacts.in_assignments in E. destruct E as [i ->]. apply hmdb_item_shape.
Qed.

Lemma query_kegg_value w ms n :
  Dict.get_default n [] (query_kegg w ms) = [] \/
  kegg_shape (Dict.get_default n [] (query_kegg w ms)).
Proof.
  unfold Dict.get_default, query_kegg. rewrite query_kegg_loop_update.
  destruct (Dict.get n _) as [r|] eqn:E; [right|now left].
  apply LoopFacts.get_update_origin in E. destruct E as [E|E]; [discriminate|].
  apply LoopFacts.in_assignments in E. destruct E as [i ->]. apply kegg_item_shape.
Qed.

Lemma hmdb_shape_keys r k :
  r = [] \/ hmdb_shape r ->
  In k (Dict.keys r) ->
  In k ["hmdb_id"; "super_class"; "class"; "sub_class"; "hmdb_pathways"; "hmdb_status"].
Proof.
  intros [->|[(s & ->)|(a & b & c & d & e & ->)]]; simpl; tauto.
Qed.

Lemma kegg_shape_keys r k :
  r = [] \/ kegg_shape r ->
  In k (Dict.keys r) ->
  In k ["kegg_id"; "type"; "kegg_pathways"; "description"; "kegg_status"].
Proof.
  intros [->|[(s & ->)|(a & b & c & d & _ & ->)]]; simpl; tauto.
Qed.

Lemma shape_NoDup_hmdb r : r = [] \/ hmdb_shape r -> NoDup (Dict.keys r).
Proof.
  intros [->|[(s & ->)|(a & b & c & d & e & ->)]]; simpl;
    repeat (constructor; [simpl; intuition discriminate|]); constructor.
Qed.

Lemma shape_NoDup_kegg r : r = [] \/ kegg_shape r -> NoDup (Dict.keys r).
Proof.
  intros [->|[(s & ->)|(a & b & c & d & _ & ->)]]; simpl;
    repeat (constructor; [simpl; intuition discriminate|]); constructor.
Qed.

(** ** The loop of [classify_metabolites] *)

Section ClassifyLoop.
Import Dict DictFacts.

Lemma set_final_type_shape m r :
  set_final_type m = Ok r -> exists v, r = set "final_type" v m.
Proof.
  unfold set_final_type. destruct (get "type" m).
  - intros [= <-]. eauto.
  - destruct (py_lower _); cbn [bind]; [|discriminate].
    destruct (any_in primary_keywords a); [intros [= <-]; eauto|].
    destruct (any_in secondary_keywords a); intros [= <-]; eauto.
Qed.

(** Classifying a classified record changes nothing. *)
Lemma set_final_type_idem m r :
  set_final_type m = Ok r -> set_final_type r = Ok r.
Proof.
  unfold set_final_type. destruct (get "type" m) as [ty|] eqn:Ht.
  - intros [= <-]. rewrite get_set_neq, Ht by discriminate.
    f_equal. apply set_same, get_set_eq.
  - destruct (py_lower (get_default "super_class" (VStr "") m)) as [s|e] eqn:Hl;
      cbn [bind]; [|discriminate].
    assert (G : forall v, get_default "super_class" (VStr "") (set "final_type" v m)
                     = get_default "super_class" (VStr "") m).
    { intros v. unfold get_default. now rewrite get_set_neq by discriminate. }
    destruct (any_in primary_keywords s) eqn:E1;
      [|destruct (any_in secondary_keywords s) eqn:E2];
      intros [= <-]; rewrite get_set_neq, Ht, G, Hl by discriminate;
      cbn [bind]; rewrite E1, ?E2; f_equal; apply set_same, get_set_eq.
Qed.

(** Merging the same two records again into their classified merge
    changes nothing. *)
Lemma merge_revisit (h k : pydict) v :
  ~ In "final_type" (keys h) -> ~ In "final_type" (keys k) ->
  merge (set "final_type" v (merge [] h k)) h k = set "final_type" v (merge [] h k).
Proof.
  intros Nh Nk. unfold merge.
  set (m := update (update [] h) k).
  assert (Ih : forall x, In x (keys h) -> In x (keys m)).
  { intros x I. unfold m. rewrite !in_keys_update. auto. }
  assert (Ik : forall x, In x (keys k) -> In x (keys m)).
  { intros x I. unfold m. rewrite !in_keys_update. auto. }
  rewrite update_set_comm by auto.
  rewrite update_set_comm; auto.
  2:{ intros x I. rewrite in_keys_update. auto. }
  f_equal. symmetry. apply ext.
  - unfold m. apply NoDup_keys_update, NoDup_keys_update. constructor.
  - rewrite !keys_update_incl; auto.
    intros x I. rewrite keys_update_incl; auto.
  - intros x. unfold m. rewrite !get_update.
    destruct (get x (rev k)); auto. destruct (get x (rev h)); auto.
Qed.

Variables hmdb_data kegg_data : Dict.t pydict.
Hypothesis hmdb_plain :
  forall n, ~ In "final_type" (keys (get_default n [] hmdb_data)).
Hypothesis kegg_plain :
  forall n, ~ In "final_type" (keys (get_default n [] kegg_data)).

Lemma loop_body_row classified metab :
  rows_settled hmdb_data kegg_data classified ->
  set_final_type (merge (get_default metab [] classified)
                        (get_default metab [] hmdb_data)
                        (get_default metab [] kegg_data))
  = row_of hmdb_data kegg_data metab.
Proof.
  intros S. unfold get_default at 1.
  match goal with
  | |- context [match ?g with Some _ => _ | None => _ end] =>
      destruct g as [r|] eqn:E; [|reflexivity]
  end.
  apply S in E. rewrite E. unfold row_of in E.
  destruct (set_final_type_shape _ _ E) as [v ->].
  rewrite merge_revisit by auto.
  now apply set_final_type_idem in E.
Qed.

(** The loop is the list of the records of the names, assigned in order. *)
Lemma classify_loop_rows metabolites : forall classified,
  rows_settled hmdb_data kegg_data classified ->
  classify_loop hmdb_data kegg_data metabolites classified =
  (rows <- mapM (fun n => r <- row_of hmdb_data kegg_data n ;; Ok (n, r)) metabolites ;;
   Ok (update classified rows)).
Proof.
  induction metabolites as [|metab rest IH]; intros classified S; [reflexivity|].
  cbn [classify_loop mapM]. rewrite loop_body_row by assumption.
  destruct (row_of hmdb_data kegg_data metab) as [r|e] eqn:E; cbn [bind]; [|reflexivity].
  rewrite IH.
  - destruct (mapM _ rest); reflexivity.
  - intros n r' G. rewrite get_set in G.
    destruct (String.eqb n metab) eqn:Q; [|now apply S].
    apply String.eqb_eq in Q. subst. congruence.
Qed.
End ClassifyLoop.

Lemma mapM_rows {A} (g : string -> result A) l : forall rows,
  mapM (fun n => r <- g n ;; Ok (n, r)) l = Ok rows ->
  Dict.keys rows = l /\
  forall j n, nth_error l j = Some n ->
              exists r, g n = Ok r /\ nth_error rows j = Some (n, r).
Proof.
  induction l as [|a l IH]; intros rows; cbn [mapM].
  - intros [= <-]. split; auto. intros [|j] n; discriminate.
  - destruct (g a) as [r|e] eqn:E; cbn [bind]; [|discriminate].
    destruct (mapM _ l) as [rs|e] eqn:M; cbn [bind]; [|discriminate].
    intros [= <-]. destruct (IH _ eq_refl) as [K N]. split.
    + simpl. now rewrite K.
    + intros [|j] n; simpl; [intros [= <-]; eauto | apply N].
Qed.

Lemma mapM_raise {A} (g : string -> result A) l e :
  mapM (fun n => r <- g n ;; Ok (n, r)) l = Raise e ->
  exists n, In n l /\ g n = Raise e.
Proof.
  induction l as [|a l IH]; cbn [mapM]; [discriminate|].
  destruct (g a) as [r|e'] eqn:E; cbn [bind].
  - destruct (mapM _ l) as [rs|e''] eqn:M; cbn [bind]; [discriminate|].
    intros [= ->]. destruct (IH eq_refl) as (n & I & G). exists n. simpl. auto.
  - intros [= ->]. exists a. simpl. auto.
Qed.

Lemma mapM_total {A} (g : string -> result A) l :
  (forall n, In n l -> exists r, g n = Ok r) ->
  exists rows, mapM (fun n => r <- g n ;; Ok (n, r)) l = Ok rows.
Proof.
  induction l as [|a l IH]; intros H; cbn [mapM]; [eauto|].
  destruct (H a) as [r ->]; [now left|]. cbn [bind].
  destruct IH as [rs ->]; [intros n I; apply H; now right|].
  cbn [bind]. eauto.
Qed.

(** [classify_metabolites] assigns to each name, in input order, the
    classified merge of what the two query loops hold for it. *)
Lemma classify_metabolites_rows hw kw ms :
  classify_metabolites hw kw ms =
  (rows <- mapM (fun n => r <- row_of (query_hmdb hw ms) (query_kegg kw ms) n ;; Ok (n, r)) ms ;;
   Ok (Dict.update [] rows)).
Proof.
  unfold classify_metabolites. apply classify_loop_rows.
  - intros n I. apply (hmdb_shape_keys _ _ (query_hmdb_value hw ms n)) in I.
    simpl in I. intuition discriminate.
  - intros n I. apply (kegg_shape_keys _ _ (query_kegg_value kw ms n)) in I.
    simpl in I. intuition discriminate.
  - intros n r. discriminate.
Qed.

(** ** The table of [classify_metabolites] *)

Section Table.
Import Dict DictFacts.

Lemma last_at_single n : last_at [n] 0 n.
Proof.
  split; [reflexivity|]. intros [|[|j]] L; simpl; try discriminate. lia.
Qed.

Lemma get_merge_empty (h k : pydict) x :
  NoDup (keys h) -> NoDup (keys k) ->
  get x (merge [] h k) =
  match get x k with Some v => Some v | None => get x h end.
Proof.
  intros Nh Nk. unfold merge. rewrite !get_update, !get_rev_NoDup by assumption.
  destruct (get x k); auto. destruct (get x h); auto.
Qed.

Lemma set_final_type_keeps m r x :
  set_final_type m = Ok r -> x <> "final_type" -> get x r = get x m.
Proof.
  intros H N. destruct (set_final_type_shape _ _ H) as [v ->].
  apply get_set_neq. congruence.
Qed.

(** The rows of the table: the first occurrences of the names in order,
    each holding the classified merge of the last answers for the name. *)
Lemma table_rows hw kw ms T :
  classify_metabolites hw kw ms = Ok T ->
  keys T = uniq ms /\
  forall j n, last_at ms j n ->
    exists row, get n T = Some row /\
      set_final_type (merge [] (hmdb_item (hw j)) (kegg_item (kw j))) = Ok row.
Proof.
  rewrite classify_metabolites_rows.
  destruct (mapM _ ms) as [rows|e] eqn:M; cbn [bind]; [|discriminate].
  intros [= <-]. destruct (mapM_rows _ _ _ M) as [K N]. split.
  - now rewrite LoopFacts.keys_update_empty, K.
  - intros j n L. pose proof L as [Hj Hl].
    destruct (N _ _ Hj) as (r & R & Hr). exists r. split.
    + apply (LoopFacts.get_update_last _ _ j); auto.
      intros j' v' Lt C. apply (Hl j' Lt).
      rewrite <- K. unfold keys. now rewrite (map_nth_error fst _ _ C).
    + rewrite <- R. unfold row_of. symmetry.
      unfold merge. do 3 f_equal.
      * exact (f_equal (fun o => match o with Some v => v | None => [] end)
                 (query_hmdb_last hw ms j n L)).
      * exact (f_equal (fun o => match o with Some v => v | None => [] end)
                 (query_kegg_last kw ms j n L)).
Qed.

Lemma occurs_last (ms : list string) n :
  In n ms -> exists j, last_at ms j n.
Proof.
  induction ms as [|a ms IH]; [intros []|].
  intros I. destruct (in_dec string_dec n ms) as [J|J].
  - destruct (IH J) as (j & Hj & Hl). exists (S j). split; auto.
    intros [|j'] L; [lia|]. apply Hl. lia.
  - destruct I as [->|I]; [|tauto]. exists 0. split; auto.
    intros [|j'] L; [lia|]. simpl. intros C. apply nth_error_In in C. tauto.
Qed.
End Table.

(** ** Independence of the two sources *)

Lemma get_kegg_id_transport e : get_kegg_id (Raise e) = None.
Proof. reflexivity. Qed.

Lemma kegg_item_not_found w :
  get_kegg_id (kegg_find w) = None ->
  kegg_item w = [("kegg_status", VStr "ID not found")].
Proof. intros H. unfold kegg_item. now rewrite H. Qed.

Lemma merge_keeps_hmdb (h : pydict) status :
  hmdb_shape h ->
  let merged := merge [] h [("kegg_status", status)] in
  Dict.get "kegg_status" merged = Some status /\
  forall k v, Dict.get k h = Some v -> Dict.get k merged = Some v.
Proof.
  intros S merged. subst merged.
  assert (N : NoDup (Dict.keys h)) by (apply shape_NoDup_hmdb; auto).
  assert (N' : NoDup (Dict.keys [("kegg_status", status)]))
    by (repeat constructor; simpl; tauto).
  split.
  - now rewrite get_merge_empty.
  - intros k v G. rewrite get_merge_empty by assumption.
    pose proof (hmdb_shape_keys h k (or_intror S) (DictFacts.get_Some_keys _ _ _ G)) as I.
    simpl. destruct (String.eqb k "kegg_status") eqn:E; [|exact G].
    apply String.eqb_eq in E. subst. simpl in I. intuition discriminate.
Qed.

(** ** Completion of the run and the values of [final_type] *)

Section FinalType.
Import Dict DictFacts.

Lemma hmdb_shape_no_type h : h = [] \/ hmdb_shape h -> get "type" h = None.
Proof. intros [->|[(s & ->)|(a & b & c & d & e & ->)]]; reflexivity. Qed.

Lemma kegg_shape_type k ty :
  k = [] \/ kegg_shape k -> get "type" k = Some ty ->
  ty = VStr "primary" \/ ty = VStr "secondary".
Proof.
  intros [->|[(s & ->)|(a & b & c & d & [-> | ->] & ->)]]; simpl;
    try discriminate; intros [= <-]; auto.
Qed.

Lemma kegg_shape_no_super_class k :
  k = [] \/ kegg_shape k -> get "super_class" k = None.
Proof. intros [->|[(s & ->)|(a & b & c & d & _ & ->)]]; reflexivity. Qed.

(** The [final_type] of a classified merge is one of the three values. *)
Lemma row_final_type (h k row : pydict) :
  h = [] \/ hmdb_shape h -> k = [] \/ kegg_shape k ->
  set_final_type (merge [] h k) = Ok row ->
  exists ft, get "final_type" row = Some ft /\ In ft final_types.
Proof.
  intros Sh Sk. unfold set_final_type.
  rewrite (get_merge_empty h k "type")
    by first [apply shape_NoDup_hmdb; assumption | apply shape_NoDup_kegg; assumption].
  rewrite (hmdb_shape_no_type h Sh).
  destruct (get "type" k) as [ty|] eqn:Ht.
  - intros [= <-]. exists ty. split; [apply get_set_eq|].
    destruct (kegg_shape_type _ _ Sk Ht) as [-> | ->]; simpl; auto.
  - destruct (py_lower _) as [s|e]; cbn [bind]; [|discriminate].
    destruct (any_in primary_keywords s); [|destruct (any_in secondary_keywords s)];
      intros [= <-]; eexists; (split; [apply get_set_eq|]); simpl; auto.
Qed.

(** A classified merge exists when the HMDB record has a string for
    super class, or none. *)
Lemma row_exists (h k : pydict) s :
  h = [] \/ hmdb_shape h -> k = [] \/ kegg_shape k ->
  get_default "super_class" (VStr "") h = VStr s ->
  exists row, set_final_type (merge [] h k) = Ok row.
Proof.
  intros Sh Sk Hs. unfold set_final_type.
  destruct (get "type" (merge [] h k)); [eauto|].
  unfold get_default.
  rewrite (get_merge_empty h k "super_class")
    by first [apply shape_NoDup_hmdb; assumption | apply shape_NoDup_kegg; assumption].
  rewrite (kegg_shape_no_super_class k Sk).
  unfold get_default in Hs. rewrite Hs. cbn [py_lower bind].
  destruct (any_in primary_keywords _); [|destruct (any_in secondary_keywords _)]; eauto.
Qed.

Lemma mapM_rows_in {A} (g : string -> result A) l rows n r :
  mapM (fun n => r <- g n ;; Ok (n, r)) l = Ok rows ->
  In (n, r) rows -> g n = Ok r.
Proof.
  intros M I. destruct (mapM_rows _ _ _ M) as [K N].
  apply In_nth_error in I. destruct I as [j I].
  assert (J : nth_error l j = Some n).
  { rewrite <- K. unfold keys. now rewrite (map_nth_error fst _ _ I). }
  destruct (N _ _ J) as (r' & G & I'). congruence.
Qed.

(** Every row of a table that is returned carries one of the three
    values of [final_type]. *)
Lemma table_final_types hw kw ms T n row :
  classify_metabolites hw kw ms = Ok T ->
  get n T = Some row ->
  exists ft, get "final_type" row = Some ft /\ In ft final_types.
Proof.
  rewrite classify_metabolites_rows.
  destruct (mapM _ ms) as [rows|e] eqn:M; cbn [bind]; [|discriminate].
  intros [= <-] G.
  apply LoopFacts.get_update_origin in G. destruct G as [G|G]; [discriminate|].
  apply (mapM_rows_in _ _ _ _ _ M) in G.
  apply (row_final_type _ _ _ (query_hmdb_value hw ms n) (query_kegg_value kw ms n) G).
Qed.

(** The run completes, with a row for every name, when no HMDB record
    holds a super class that is not a string. *)
Lemma table_exists hw kw ms :
  (forall j, j < length ms ->
     exists s, get_default "super_class" (VStr "") (hmdb_item (hw j)) = VStr s) ->
  exists T, classify_metabolites hw kw ms = Ok T /\ keys T = uniq ms.
Proof.
  intros H.
  destruct (mapM_total (row_of (query_hmdb hw ms) (query_kegg kw ms)) ms) as [rows M].
  - intros n I. destruct (occurs_last _ _ I) as [j L].
    destruct (H j) as [s Hs].
    { destruct L as [Hj _]. apply nth_error_Some. congruence. }
    unfold row_of.
    apply (row_exists _ _ s (query_hmdb_value hw ms n) (query_kegg_value kw ms n)).
    rewrite <- Hs. unfold get_default.
    exact (f_equal
             (fun o => match get "super_class"
                               match o with Some v => v | None => [] end
                       with Some v => v | None => VStr "" end)
             (query_hmdb_last hw ms j n L)).
  - assert (E : classify_metabolites hw kw ms = Ok (update [] rows))
      by (rewrite classify_metabolites_rows, M; reflexivity).
    exists (update [] rows). split; [exact E|].
    now destruct (table_rows _ _ _ _ E).
Qed.
End FinalType.

(** When both sources fail for every name, the run completes and each row
    holds the two failure statuses and [final_type = unknown]. *)
Lemma total_failure_row :
  classify_metabolites (fun _ => SamplePipeline.hmdb_down) SamplePipeline.kegg_timeouts
    SamplePipeline.glucose =
  Ok [("D-Glucose",
       [("hmdb_status", VStr "ID not found");
        ("kegg_status", VStr "ID not found");
        ("final_type", VStr "unknown")])].
Proof. reflexivity. Qed.

(** C2 fails on the code: for a name whose HMDB document has an empty
    [super_class] element and whose KEGG search gives no identifier, the
    HMDB record is a [Found] record with super class [None], the
    classification loop raises [AttributeError] on [None.lower()], and
    [classify_metabolites] returns no table at all. *)
Theorem empty_super_class_aborts_run :
  Dict.get "super_class" (hmdb_item (SamplePipeline.hmdb_empty_super_class 0)) = Some VNone /\
  Dict.get "hmdb_status" (hmdb_item (SamplePipeline.hmdb_empty_super_class 0))
    = Some (VStr "Found") /\
  kegg_item (SamplePipeline.kegg_timeouts 0) = [("kegg_status", VStr "ID not found")] /\
  classify_metabolites SamplePipeline.hmdb_empty_super_class SamplePipeline.kegg_timeouts
    SamplePipeline.glucose
  = Raise (AttributeError "'NoneType' object has no attribute 'lower'").
Proof. repeat split; reflexivity. Qed.

(** ** Precedence of the KEGG type *)

Lemma table_type_is_final_type hw kw ms T n row ty :
  classify_metabolites hw kw ms = Ok T ->
  Dict.get n T = Some row ->
  Dict.get "type" row = Some ty ->
  Dict.get "final_type" row = Some ty.
Proof.
  rewrite classify_metabolites_rows.
  destruct (mapM _ ms) as [rows|e] eqn:M; cbn [bind]; [|discriminate].
  intros [= <-] G Ht.
  apply LoopFacts.get_update_origin in G. destruct G as [G|G]; [discriminate|].
  apply (mapM_rows_in _ _ _ _ _ M) in G. unfold row_of in G.
  rewrite (set_final_type_keeps _ _ "type" G) in Ht by discriminate.
  rewrite (set_final_type_typed _ _ Ht) in G. injection G as <-.
  apply DictFacts.get_set_eq.
Qed.

(** C1: on a merged record that carries a [type], [final_type] becomes
    that value and every other field stays as it was: the super class is
    not consulted. So a record of type [secondary] whose super class
    contains "lipid" gets [final_type] [secondary]; and in every table
    that [classify_metabolites] returns, a row with a [type] has that
    value as its [final_type]. *)
Theorem kegg_type_takes_precedence :
  (forall (record : pydict) (ty : pyval),
      Dict.get "type" record = Some ty ->
      exists record',
        set_final_type record = Ok record' /\
        Dict.get "final_type" record' = Some ty /\
        forall k, k <> "final_type" -> Dict.get k record' = Dict.get k record) /\
  (forall (record : pydict) (s : string),
      Dict.get "type" record = Some (VStr "secondary") ->
      Dict.get "super_class" record = Some (VStr s) ->
      Text.ci_contains "lipid" s = true ->
      exists record',
        set_final_type record = Ok record' /\
        Dict.get "final_type" record' = Some (VStr "secondary")) /\
  (forall hw kw (ms : list string) (T : Dict.t pydict) (n : string) (row : pydict) ty,
      classify_metabolites hw kw ms = Ok T ->
      Dict.get n T = Some row ->
      Dict.get "type" row = Some ty ->
      Dict.get "final_type" row = Some ty).
Proof.
  assert (A : forall (record : pydict) (ty : pyval),
      Dict.get "type" record = Some ty ->
      exists record',
        set_final_type record = Ok record' /\
        Dict.get "final_type" record' = Some ty /\
        forall k, k <> "final_type" -> Dict.get k record' = Dict.get k record).
  { intros record ty H. exists (Dict.set "final_type" ty record).
    split; [now apply set_final_type_typed|].
    split; [apply DictFacts.get_set_eq|].
    intros k N. apply DictFacts.get_set_neq. congruence. }
  split; [exact A|]. split.
  - intros record s Ht _ _. destruct (A record _ Ht) as (r & H1 & H2 & _). eauto.
  - exact table_type_is_final_type.
Qed.

Lemma kegg_type_takes_precedence_witness :
  (exists record',
     set_final_type SampleRecord.secondary_lipid = Ok record' /\
     Dict.get "final_type" record' = Some (VStr "secondary")) /\
  (exists T row,
     classify_metabolites SamplePipeline.hmdb_recovering SamplePipeline.kegg_second_only
       SamplePipeline.repeated = Ok T /\
     Dict.get "Quercetin" T = Some row /\
     Dict.get "final_type" row = Some (VStr "primary")).
Proof.
  split.
  - destruct (proj1 kegg_type_takes_precedence SampleRecord.secondary_lipid
                (VStr "secondary") eq_refl) as (r & H1 & H2 & _).
    destruct (proj1 (proj2 kegg_type_takes_precedence) SampleRecord.secondary_lipid
                "Lipids and lipid-like molecules" eq_refl eq_refl eq_refl)
      as (r' & H1' & H2').
    exists r'. split; assumption.
  - do 2 eexists. split; [reflexivity|]. split; [reflexivity|].
    refine (proj2 (proj2 kegg_type_takes_precedence)
              SamplePipeline.hmdb_recovering SamplePipeline.kegg_second_only
              SamplePipeline.repeated _ "Quercetin" _ (VStr "primary") _ _ _);
      reflexivity.
Defined.

(** * Further properties of the code *)

(** ** More on strings *)

Module TextMore.
Import Text TextFacts.

Lemma has_take_until_same p s : has p (take_until p s) = false.
Proof.
  induction s as [|c s IH]; simpl; auto.
  destruct (p c) eqn:E; simpl; auto. now rewrite E.
Qed.

Lemma has_take_until q p s : has q (take_until p s) = true -> has q s = true.
Proof.
  induction s as [|c s IH]; simpl; auto.
  destruct (p c); simpl; [discriminate|].
  destruct (q c); simpl; auto.
Qed.

Lemma has_after_first q p s : has q (after_first p s) = true -> has q s = true.
Proof.
  induction s as [|c s IH]; simpl; auto.
  destruct (p c); intros H; [rewrite H|rewrite IH by assumption]; apply orb_true_r.
Qed.

Lemma has_weaken (p q : ascii -> bool) s :
  (forall c, q c = true -> p c = true) -> has p s = false -> has q s = false.
Proof.
  intros W. induction s as [|c s IH]; simpl; auto.
  intros H. apply orb_false_iff in H. destruct H as [H1 H2].
  rewrite IH by assumption. destruct (q c) eqn:E; auto.
  apply W in E. congruence.
Qed.

Lemma take_until_app p (a : string) c b :
  has p a = false -> p c = true -> take_until p (a ++ String c b)%string = a.
Proof.
  induction a as [|x a IH]; simpl; intros H Hc.
  - now rewrite Hc.
  - apply orb_false_iff in H. destruct H as [H1 H2]. now rewrite H1, IH.
Qed.

Lemma after_first_app p (a : string) c b :
  has p a = false -> p c = true -> after_first p (a ++ String c b)%string = b.
Proof.
  induction a as [|x a IH]; simpl; intros H Hc.
  - now rewrite Hc.
  - apply orb_false_iff in H. destruct H as [H1 H2]. now rewrite H1, IH.
Qed.

Lemma take_until_all p s : has p s = false -> take_until p s = s.
Proof.
  induction s as [|x a IH]; simpl; auto. intros H.
  apply orb_false_iff in H. destruct H as [H1 H2]. now rewrite H1, IH.
Qed.

Lemma isspace_newline c : same PyStr.newline c = true -> PyStr.isspace c = true.
Proof. unfold same. intros H. apply Ascii.eqb_eq in H. now subst. Qed.

(** No piece of [s.split(c)] contains [c]. *)
Lemma split_pieces c s : Forall (fun x => has (same c) x = false) (PyStr.split c s).
Proof.
  induction s as [|x r IH]; simpl.
  - repeat constructor.
  - destruct (Ascii.eqb x c) eqn:E.
    + constructor; auto.
    + destruct (PyStr.split c r) as [|h t]; inversion IH; subst;
        constructor; auto; simpl; unfold same at 1; now rewrite E.
Qed.

End TextMore.

(** ** The identifier that [get_kegg_id] returns *)

(** X1: an identifier returned by [get_kegg_id] contains no colon and no
    whitespace, whatever the answer of the search was. *)
Theorem get_kegg_id_clean :
  forall (get : result (response string)) (kegg_id : string),
    get_kegg_id get = Some kegg_id ->
    Text.has (Text.same PyStr.colon) kegg_id = false /\
    Text.has PyStr.isspace kegg_id = false.
Proof.
  intros get kegg_id. rewrite get_kegg_id_refines. unfold kegg_id_spec.
  destruct get as [r|e]; [|discriminate].
  destruct (status_code r =? 200)%Z; [|discriminate].
  destruct (first_nonempty_line (body r)) as [line|]; [|discriminate].
  destruct (Text.has PyStr.isspace line); [|discriminate].
  unfold between_colons.
  destruct (Text.has (Text.same PyStr.colon) _); [|discriminate].
  intros [= <-]. split.
  - apply TextMore.has_take_until_same.
  - destruct (Text.has PyStr.isspace (Text.take_until _ (Text.after_first _ _))) eqn:E; auto.
    apply TextMore.has_take_until, TextMore.has_after_first in E.
    now rewrite TextMore.has_take_until_same in E.
Qed.

Lemma get_kegg_id_clean_witness :
  Text.has (Text.same PyStr.colon) "C00031" = false /\
  Text.has PyStr.isspace "C00031" = false.
Proof.
  apply (get_kegg_id_clean (Sample.ok 200 Sample.find_text) "C00031"). reflexivity.
Defined.

(** X2: when the search answers 200 and its first line is
    [<db>:<id><space><name>], with no colon and no whitespace in [<db>] and
    [<id>] and a separator that is whitespace but not a line feed,
    [get_kegg_id] returns [<id>]; the rest of the answer is not read. *)
Theorem get_kegg_id_reads_first_entry :
  forall (r : response string) (db kegg_id name rest : string) (sep : ascii),
    status_code r = 200%Z ->
    body r = ((db ++ String PyStr.colon (kegg_id ++ String sep name))
                 ++ String PyStr.newline rest)%string ->
    Text.has PyStr.isspace db = false ->
    Text.has (Text.same PyStr.colon) db = false ->
    Text.has PyStr.isspace kegg_id = false ->
    Text.has (Text.same PyStr.colon) kegg_id = false ->
    PyStr.isspace sep = true ->
    sep <> PyStr.newline ->
    Text.has (Text.same PyStr.newline) name = false ->
    get_kegg_id (Ok r) = Some kegg_id.
Proof.
  intros r db kegg_id name rest sep Hs Hb Hd1 Hd2 Hi1 Hi2 Hsep Hnl Hname.
  set (tok := (db ++ String PyStr.colon kegg_id)%string).
  set (line := (db ++ String PyStr.colon (kegg_id ++ String sep name))%string).
  assert (Etok : line = (tok ++ String sep name)%string).
  { unfold line, tok. rewrite <- app_assoc'. reflexivity. }
  assert (Htok : Text.has PyStr.isspace tok = false).
  { unfold tok. rewrite has_app. simpl. now rewrite Hd1, Hi1. }
  assert (Hline : Text.has (Text.same PyStr.newline) line = false).
  { rewrite Etok, has_app. simpl.
    rewrite (TextMore.has_weaken _ _ _ TextMore.isspace_newline Htok), Hname.
    unfold Text.same. destruct (Ascii.eqb sep PyStr.newline) eqn:E; auto.
    apply Ascii.eqb_eq in E. contradiction. }
  rewrite get_kegg_id_refines. unfold kegg_id_spec. rewrite Hs, Hb. simpl Z.eqb. cbv iota.
  fold line.
  assert (F : first_nonempty_line (line ++ String PyStr.newline rest)%string = Some line).
  { apply (first_line_found 0 line rest); auto. unfold line. apply nonempty_app_cons. }
  rewrite F.
  assert (Hsp : Text.has PyStr.isspace line = true).
  { rewrite Etok, has_app. simpl. rewrite Hsep. apply orb_true_r. }
  rewrite Hsp, Etok, TextMore.take_until_app by assumption.
  assert (Hc : Text.has (Text.same PyStr.colon) tok = true).
  { unfold tok. rewrite has_app. cbn [Text.has]. unfold Text.same at 2.
    rewrite Ascii.eqb_refl. cbn [orb]. apply orb_true_r. }
  unfold between_colons. rewrite Hc. unfold tok.
  rewrite TextMore.after_first_app by (auto; apply Ascii.eqb_refl).
  now rewrite TextMore.take_until_all.
Qed.

Lemma get_kegg_id_reads_first_entry_witness :
  get_kegg_id (Sample.ok 200 Sample.find_garbled) = None /\
  get_kegg_id (Sample.ok 200 Sample.find_text) = Some "C00031".
Proof.
  split; [reflexivity|].
  apply (get_kegg_id_reads_first_entry
           (mkResponse 200%Z "" "" Sample.find_text)
           "cpd" "C00031" "D-Glucose; Grape sugar" "" PyStr.tab);
    try reflexivity.
  discriminate.
Defined.

(** ** The records of [query_hmdb] *)

(** What [query_hmdb] stores for a document that is read down to its
    [pathway] value: the record of the names, or the error of the
    comprehension. Absent blocks count as empty. *)
Lemma hmdb_item_document (w : hmdb_responses) (r : response (result pyval))
    data info c pw :
  truthy (search_hmdb_id (hmdb_search w)) = true ->
  hmdb_detail w = Ok r ->
  raise_for_status r = Ok tt ->
  body r = Ok (VDict data) ->
  Dict.get_default "metabolite" (VDict []) data = VDict info ->
  Dict.get_default "classification" (VDict []) info = VDict c ->
  Dict.get_default "pathways" (VDict []) info = VDict pw ->
  hmdb_item w =
  match pathway_names (normalize_pathways (Dict.get_default "pathway" (VList []) pw)) with
  | Ok names =>
      [("hmdb_id", search_hmdb_id (hmdb_search w));
       ("super_class", Dict.get_default "super_class" (VStr "Unknown") c);
       ("class", Dict.get_default "class" (VStr "Unknown") c);
       ("sub_class", Dict.get_default "sub_class" (VStr "Unknown") c);
       ("hmdb_pathways", VList names);
       ("hmdb_status", VStr "Found")]
  | Raise e => [("hmdb_status", VStr ("Error: " ++ str_exn e))]
  end.
Proof.
  intros Hid Hd Hs Hb Hm Hc Hp.
  unfold hmdb_item. rewrite Hid. cbn [negb].
  unfold hmdb_fetch. rewrite Hd. cbn [bind]. rewrite Hs, Hb. cbn [bind].
  unfold py_get at 1. rewrite Hm. cbn [bind].
  unfold py_get at 1. rewrite Hc. cbn [bind].
  unfold py_get at 1. rewrite Hp. cbn [bind].
  cbn [py_get bind].
  destruct (pathway_names _); reflexivity.
Qed.

(** X3: a record of [query_hmdb] is all or nothing: it is the single field
    [hmdb_status = "ID not found"] when the search gave no usable
    identifier, the single field [hmdb_status = "Error: <message>"] when
    anything raised after that, and else the six fields with status
    [Found], [hmdb_id] being what the search returned. *)
Theorem hmdb_record_all_or_nothing :
  forall w : hmdb_responses,
    (truthy (search_hmdb_id (hmdb_search w)) = false /\
     hmdb_item w = [("hmdb_status", VStr "ID not found")]) \/
    (exists e,
        truthy (search_hmdb_id (hmdb_search w)) = true /\
        hmdb_fetch (search_hmdb_id (hmdb_search w)) w = Raise e /\
        hmdb_item w = [("hmdb_status", VStr ("Error: " ++ str_exn e))]) \/
    (exists super_class class sub_class names,
        truthy (search_hmdb_id (hmdb_search w)) = true /\
        hmdb_item w =
          [("hmdb_id", search_hmdb_id (hmdb_search w));
           ("super_class", super_class); ("class", class); ("sub_class", sub_class);
           ("hmdb_pathways", VList names); ("hmdb_status", VStr "Found")]).
Proof.
  intros w. unfold hmdb_item.
  destruct (truthy (search_hmdb_id (hmdb_search w))) eqn:Hid; cbn [negb]; [right|left; auto].
  destruct (hmdb_fetch _ w) as [r|e] eqn:F; [right|left; eauto].
  unfold hmdb_fetch in F. bind_ok F. injection F as <-. eauto 10.
Qed.

(** X4: when the identifier is known and the detail request answers with a
    status from 400 to 599, the record is the single field [hmdb_status]
    holding the message of the HTTP error; the body of the answer is not
    read. *)
Theorem hmdb_http_error_recorded :
  forall (w : hmdb_responses) (r : response (result pyval)),
    truthy (search_hmdb_id (hmdb_search w)) = true ->
    hmdb_detail w = Ok r ->
    (400 <= status_code r < 600)%Z ->
    hmdb_item w =
      [("hmdb_status",
        VStr ("Error: " ++ PyStr.of_Z (status_code r) ++
              (if (status_code r <? 500)%Z then " Client Error: " else " Server Error: ") ++
              reason r ++ " for url: " ++ url r))].
Proof.
  intros w r Hid Hd Hs. unfold hmdb_item. rewrite Hid. cbn [negb].
  unfold hmdb_fetch. rewrite Hd. cbn [bind]. unfold raise_for_status.
  destruct (status_code r <? 500)%Z eqn:L.
  - assert (E : (400 <=? status_code r)%Z = true) by (apply Z.leb_le; lia).
    rewrite E. reflexivity.
  - assert (E : (400 <=? status_code r)%Z = true) by (apply Z.leb_le; lia).
    assert (E1 : (500 <=? status_code r)%Z = true) by (apply Z.leb_le; apply Z.ltb_ge in L; lia).
    assert (E2 : (status_code r <? 600)%Z = true) by (apply Z.ltb_lt; lia).
    rewrite E, E1, E2. reflexivity.
Qed.

Lemma hmdb_http_error_recorded_witness :
  hmdb_item SampleMore.detail_404 =
    [("hmdb_status",
      VStr "Error: 404 Client Error: Not Found for url: https://hmdb.ca/metabolites/HMDB0000122.xml")].
Proof.
  apply (hmdb_http_error_recorded SampleMore.detail_404
           (mkResponse 404%Z "Not Found" "https://hmdb.ca/metabolites/HMDB0000122.xml"
              (Ok SampleHmdb.one_pathway)));
    [reflexivity | reflexivity | simpl; lia].
Defined.

(** X5: a status outside 400..599 is no error for [query_hmdb]: the
    document is read exactly as under status 200. *)
Theorem hmdb_other_status_read_as_data :
  forall search (status : Z) (reason url : string) (doc : result pyval),
    ~ (400 <= status < 600)%Z ->
    hmdb_item (mkHmdb search (Ok (mkResponse status reason url doc))) =
    hmdb_item (mkHmdb search (Ok (mkResponse 200%Z reason url doc))).
Proof.
  intros search status reason url doc H.
  unfold hmdb_item, hmdb_fetch. cbn [hmdb_search hmdb_detail bind].
  assert (E : raise_for_status (mkResponse status reason url doc) = Ok tt).
  { unfold raise_for_status. cbn [status_code].
    destruct (Z.leb_spec 400 status), (Z.ltb_spec status 500),
             (Z.leb_spec 500 status), (Z.ltb_spec status 600);
      cbn [andb]; auto; exfalso; lia. }
  rewrite E. reflexivity.
Qed.

Lemma hmdb_other_status_read_as_data_witness :
  hmdb_item (mkHmdb Sample.search_200
               (Ok (mkResponse 203%Z "" "" (Ok SampleHmdb.one_pathway)))) =
  hmdb_item (SampleHmdb.found SampleHmdb.one_pathway).
Proof.
  apply (hmdb_other_status_read_as_data Sample.search_200 203%Z "" ""
           (Ok SampleHmdb.one_pathway)).
  lia.
Defined.

(** X6: a document without [classification] and without [pathways] (a
    document with another root element is one) gives a [Found] record with
    the three taxonomy fields at "Unknown" and no pathway; merged with a
    KEGG record that has no type, it is classified [unknown]. *)
Theorem hmdb_defaults_unknown :
  forall (w : hmdb_responses) (r : response (result pyval)) data info,
    truthy (search_hmdb_id (hmdb_search w)) = true ->
    hmdb_detail w = Ok r ->
    raise_for_status r = Ok tt ->
    body r = Ok (VDict data) ->
    Dict.get_default "metabolite" (VDict []) data = VDict info ->
    Dict.get "classification" info = None ->
    Dict.get "pathways" info = None ->
    hmdb_item w =
      [("hmdb_id", search_hmdb_id (hmdb_search w));
       ("super_class", VStr "Unknown"); ("class", VStr "Unknown");
       ("sub_class", VStr "Unknown"); ("hmdb_pathways", VList []);
       ("hmdb_status", VStr "Found")] /\
    forall status,
      exists row,
        set_final_type (merge [] (hmdb_item w) [("kegg_status", VStr status)]) = Ok row /\
        Dict.get "final_type" row = Some (VStr "unknown").
Proof.
  intros w r data info Hid Hd Hs Hb Hm Hc Hp.
  assert (E : hmdb_item w =
      [("hmdb_id", search_hmdb_id (hmdb_search w));
       ("super_class", VStr "Unknown"); ("class", VStr "Unknown");
       ("sub_class", VStr "Unknown"); ("hmdb_pathways", VList []);
       ("hmdb_status", VStr "Found")]).
  { rewrite (hmdb_item_document w r data info [] [] Hid Hd Hs Hb Hm).
    - reflexivity.
    - unfold Dict.get_default. now rewrite Hc.
    - unfold Dict.get_default. now rewrite Hp. }
  split; [exact E|].
  intros status. rewrite E. eexists. split; reflexivity.
Qed.

Lemma hmdb_defaults_unknown_witness :
  Dict.get "super_class" (hmdb_item (SampleHmdb.found SampleMore.other_root))
    = Some (VStr "Unknown") /\
  Dict.get "hmdb_status" (hmdb_item (SampleHmdb.found SampleMore.other_root))
    = Some (VStr "Found").
Proof.
  destruct (hmdb_defaults_unknown (SampleHmdb.found SampleMore.other_root)
              (mkResponse 200%Z "" "" (Ok SampleMore.other_root))
              [("error", VDict [("message", VStr "Metabolite not found")])] []
              eq_refl eq_refl eq_refl eq_refl eq_refl eq_refl eq_refl) as [E _].
  rewrite E. split; reflexivity.
Defined.

(** X7: when the [pathway] value of a document cannot be iterated (an
    empty [pathway] element is read as [None]), the whole record is lost:
    it is the single field [hmdb_status] with the message of the error. *)
Theorem hmdb_pathway_not_iterable :
  forall (w : hmdb_responses) (r : response (result pyval)) data info c pw p e,
    truthy (search_hmdb_id (hmdb_search w)) = true ->
    hmdb_detail w = Ok r ->
    raise_for_status r = Ok tt ->
    body r = Ok (VDict data) ->
    Dict.get_default "metabolite" (VDict []) data = VDict info ->
    Dict.get_default "classification" (VDict []) info = VDict c ->
    Dict.get "pathways" info = Some (VDict pw) ->
    Dict.get "pathway" pw = Some p ->
    py_iter p = Raise e ->
    e = TypeError ("'" ++ type_name p ++ "' object is not iterable") /\
    hmdb_item w = [("hmdb_status", VStr ("Error: " ++ str_exn e))].
Proof.
  intros w r data info c pw p e Hid Hd Hs Hb Hm Hc Hpw Hp Hi.
  split.
  - destruct p; cbn [py_iter] in Hi; try discriminate Hi; now injection Hi as <-.
  - rewrite (hmdb_item_document w r data info c pw Hid Hd Hs Hb Hm Hc).
    + unfold Dict.get_default. rewrite Hp.
      assert (N : normalize_pathways p = p) by (destruct p; try reflexivity; discriminate).
      rewrite N. unfold pathway_names. rewrite Hi. reflexivity.
    + unfold Dict.get_default. now rewrite Hpw.
Qed.

Lemma hmdb_pathway_not_iterable_witness :
  hmdb_item (SampleHmdb.found SampleMore.empty_pathway) =
    [("hmdb_status", VStr "Error: 'NoneType' object is not iterable")].
Proof.
  apply (proj2 (hmdb_pathway_not_iterable (SampleHmdb.found SampleMore.empty_pathway)
           (mkResponse 200%Z "" "" (Ok SampleMore.empty_pathway))
           _ _ [] _ VNone _
           eq_refl eq_refl eq_refl eq_refl eq_refl eq_refl eq_refl eq_refl eq_refl)).
Defined.

(** ** The records of [query_kegg] *)

Lemma mapM_all_ok {A B} (f : A -> result B) l :
  Forall (fun a => exists b, f a = Ok b) l ->
  exists bs, mapM f l = Ok bs /\ length bs = length l.
Proof.
  induction 1 as [|a l [b Hb] _ [bs [IH L]]]; cbn [mapM].
  - exists []. auto.
  - rewrite Hb, IH. cbn [bind]. exists (b :: bs). simpl. auto.
Qed.

Lemma mapM_first_raise {A B} (f : A -> result B) l e :
  (forall a e', f a = Raise e' -> e' = e) ->
  Exists (fun a => exists e', f a = Raise e') l ->
  mapM f l = Raise e.
Proof.
  intros U. induction 1 as [a l [e' H]|a l _ IH]; cbn [mapM].
  - rewrite H. cbn [bind]. f_equal. now apply U in H.
  - destruct (f a) as [b|e'] eqn:E; cbn [bind].
    + now rewrite IH.
    + f_equal. now apply U in E.
Qed.

Lemma second_split c line :
  second (PyStr.split c line) =
  if Text.has (Text.same c) line
  then Ok (Text.take_until (Text.same c) (Text.after_first (Text.same c) line))
  else Raise (IndexError "list index out of range").
Proof.
  rewrite TextFacts.split_unfold.
  destruct (Text.has (Text.same c) line); [|reflexivity].
  now rewrite TextFacts.split_unfold.
Qed.

(** X8: a record of [query_kegg] is all or nothing: the single field
    [kegg_status = "ID not found"] when the search gave no identifier or an
    empty one; the single field [kegg_status = "Error: <message>"] when
    either fetch or the reading of the pathway lines raised; else the five
    fields with status [Found], where [type] is [secondary] exactly when
    the detail text contains "Secondary metabolites" and [primary]
    otherwise, and [description] is the second line of the detail text. *)
Theorem kegg_record_all_or_nothing :
  forall w : kegg_responses,
    ((get_kegg_id (kegg_find w) = None \/ get_kegg_id (kegg_find w) = Some "") /\
     kegg_item w = [("kegg_status", VStr "ID not found")]) \/
    (exists kegg_id e,
        get_kegg_id (kegg_find w) = Some kegg_id /\ kegg_id <> "" /\
        kegg_fetch kegg_id w = Raise e /\
        kegg_item w = [("kegg_status", VStr ("Error: " ++ str_exn e))]) \/
    (exists kegg_id info path codes,
        get_kegg_id (kegg_find w) = Some kegg_id /\ kegg_id <> "" /\
        kegg_get w = Ok info /\ kegg_link w = Ok path /\
        kegg_pathways (body path) = Ok codes /\
        kegg_item w =
          [("kegg_id", VStr kegg_id);
           ("type", VStr (if PyStr.contains "Secondary metabolites" (body info)
                          then "secondary" else "primary"));
           ("kegg_pathways", VList (map VStr codes));
           ("description", VStr (kegg_description (body info)));
           ("kegg_status", VStr "Found")]).
Proof.
  intros w. unfold kegg_item.
  destruct (get_kegg_id (kegg_find w)) as [[|c id]|] eqn:G; [left; auto| |left; auto].
  right.
  destruct (kegg_fetch (String c id) w) as [r|e] eqn:F.
  - right. unfold kegg_fetch in F.
    destruct (kegg_get w) as [info|] eqn:E1; cbn [bind] in F; [|discriminate].
    destruct (kegg_link w) as [path|] eqn:E2; cbn [bind] in F; [|discriminate].
    destruct (kegg_pathways (body path)) as [codes|] eqn:E3; cbn [bind] in F; [|discriminate].
    injection F as <-.
    exists (String c id), info, path, codes. repeat split; auto. discriminate.
  - left. exists (String c id), e. repeat split; auto. discriminate.
Qed.

(** X9: with the identifier resolved and both fetches answered, the record
    is [Found] with one pathway per non-empty line when every non-empty
    line of the pathway-link text has a tab; when some non-empty line has
    none, the record is the single field
    [kegg_status = "Error: list index out of range"], and identifier, type
    and description are lost with the pathways. *)
Theorem kegg_link_lines_need_tab :
  forall (w : kegg_responses) (kegg_id : string) (info path : response string),
    get_kegg_id (kegg_find w) = Some kegg_id ->
    PyStr.nonempty kegg_id = true ->
    kegg_get w = Ok info ->
    kegg_link w = Ok path ->
    (Forall (fun line => Text.has (Text.same PyStr.tab) line = true)
            (filter PyStr.nonempty (PyStr.split PyStr.newline (body path))) ->
     exists codes,
       Dict.get "kegg_pathways" (kegg_item w) = Some (VList (map VStr codes)) /\
       Dict.get "kegg_status" (kegg_item w) = Some (VStr "Found") /\
       length codes =
         length (filter PyStr.nonempty (PyStr.split PyStr.newline (body path)))) /\
    (Exists (fun line => Text.has (Text.same PyStr.tab) line = false)
            (filter PyStr.nonempty (PyStr.split PyStr.newline (body path))) ->
     kegg_item w = [("kegg_status", VStr "Error: list index out of range")]).
Proof.
  intros w kegg_id info path Hid Hne Hinfo Hpath.
  assert (K : kegg_item w =
                match kegg_fetch kegg_id w with
                | Ok record => record
                | Raise e => [("kegg_status", VStr ("Error: " ++ str_exn e))]
                end).
  { unfold kegg_item. rewrite Hid. destruct kegg_id; [discriminate|reflexivity]. }
  unfold kegg_fetch in K. rewrite Hinfo, Hpath in K. cbn [bind] in K.
  set (f := fun line => x <- second (PyStr.split PyStr.tab line) ;;
                        Ok (PyStr.replace "path:" "" x)).
  split.
  - intros H.
    destruct (mapM_all_ok f (filter PyStr.nonempty (PyStr.split PyStr.newline (body path))))
      as (codes & M & L).
    { eapply Forall_impl; [|exact H]. intros line Ht. unfold f.
      rewrite second_split, Ht. cbn [bind]. eauto. }
    exists codes. unfold kegg_pathways in K. fold f in K. rewrite M in K. cbn [bind] in K.
    rewrite K. repeat split; auto.
  - intros H.
    assert (M : mapM f (filter PyStr.nonempty (PyStr.split PyStr.newline (body path)))
                = Raise (IndexError "list index out of range")).
    { apply mapM_first_raise.
      - intros line e'. unfold f. rewrite second_split.
        destruct (Text.has _ line); cbn [bind]; [discriminate|]. now intros [= <-].
      - eapply Exists_impl; [|exact H]. intros line Ht. unfold f.
        rewrite second_split, Ht. cbn [bind]. eauto. }
    unfold kegg_pathways in K. fold f in K. rewrite M in K. exact K.
Qed.

Lemma kegg_link_lines_need_tab_witness :
  kegg_item SampleMore.kegg_link_broken =
    [("kegg_status", VStr "Error: list index out of range")] /\
  exists codes,
    Dict.get "kegg_pathways" (kegg_item Sample.kegg_twice) = Some (VList (map VStr codes)) /\
    Dict.get "kegg_status" (kegg_item Sample.kegg_twice) = Some (VStr "Found") /\
    length codes = 3.
Proof.
  split.
  - apply (proj2 (kegg_link_lines_need_tab SampleMore.kegg_link_broken "C00031"
             (mkResponse 200%Z "" "" "ENTRY       C00031")
             (mkResponse 200%Z "" "" SampleMore.link_broken)
             eq_refl eq_refl eq_refl eq_refl)).
    apply Exists_cons_tl, Exists_cons_hd. reflexivity.
  - apply (proj1 (kegg_link_lines_need_tab Sample.kegg_twice "C00031"
             (mkResponse 200%Z "" "" "ENTRY       C00031")
             (mkResponse 200%Z "" "" Sample.link_twice)
             eq_refl eq_refl eq_refl eq_refl)).
    repeat constructor.
Defined.

(** X10: the description is the second line of the detail text: the text
    between its first and its second line feed (or its end); it is empty
    when the text has a single line, and it never contains a line feed. *)
Theorem kegg_description_second_line :
  (forall (first second rest : string),
      Text.has (Text.same PyStr.newline) first = false ->
      Text.has (Text.same PyStr.newline) second = false ->
      kegg_description (first ++ String PyStr.newline second)%string = second /\
      kegg_description
        (first ++ String PyStr.newline (second ++ String PyStr.newline rest))%string
        = second) /\
  (forall text : string,
      Text.has (Text.same PyStr.newline) text = false -> kegg_description text = "") /\
  (forall text : string,
      Text.has (Text.same PyStr.newline) (kegg_description text) = false).
Proof.
  split; [|split].
  - intros first second rest H1 H2. unfold kegg_description. split.
    + rewrite TextFacts.split_app, TextFacts.split_without by assumption. reflexivity.
    + rewrite !TextFacts.split_app by assumption. reflexivity.
  - intros text H. unfold kegg_description.
    now rewrite TextFacts.split_without.
  - intros text. unfold kegg_description.
    pose proof (TextMore.split_pieces PyStr.newline text) as F.
    destruct (PyStr.split PyStr.newline text) as [|a [|b l]]; auto.
    inversion F as [|? ? _ F']. now inversion F'.
Qed.

Lemma kegg_description_second_line_witness :
  kegg_description SampleMore.detail_text = "NAME        D-Glucose;" /\
  kegg_description "Service Unavailable" = "".
Proof.
  split.
  - apply (proj1 kegg_description_second_line
             "ENTRY       C00031" "NAME        D-Glucose;" "            Grape sugar");
      reflexivity.
  - apply (proj1 (proj2 kegg_description_second_line)). reflexivity.
Defined.

(** ** The two query loops *)

Lemma query_kegg_keys w ms : Dict.keys (query_kegg w ms) = uniq ms.
Proof.
  unfold query_kegg. rewrite query_kegg_loop_update, LoopFacts.keys_update_empty.
  now rewrite LoopFacts.keys_assignments.
Qed.

(** X11: after [query_hmdb] and [query_kegg] each distinct name has one
    record, the names stand in the order of their first occurrence, the
    record of a name is the one made at its last occurrence, and a name
    that was not asked for has no record. *)
Theorem query_loops_last_write_wins :
  forall hw kw (ms : list string),
    Dict.keys (query_hmdb hw ms) = uniq ms /\
    Dict.keys (query_kegg kw ms) = uniq ms /\
    (forall j n, last_at ms j n ->
       Dict.get n (query_hmdb hw ms) = Some (hmdb_item (hw j)) /\
       Dict.get n (query_kegg kw ms) = Some (kegg_item (kw j))) /\
    (forall n, ~ In n ms ->
       Dict.get n (query_hmdb hw ms) = None /\ Dict.get n (query_kegg kw ms) = None).
Proof.
  intros hw kw ms.
  split; [apply query_hmdb_keys|]. split; [apply query_kegg_keys|]. split.
  - intros j n L. split; [now apply query_hmdb_last | now apply query_kegg_last].
  - intros n N. split; apply DictFacts.get_None_keys.
    + rewrite query_hmdb_keys, LoopFacts.uniq_in. exact N.
    + rewrite query_kegg_keys, LoopFacts.uniq_in. exact N.
Qed.

Lemma query_loops_last_write_wins_witness :
  Dict.get "D-Glucose" (query_hmdb SamplePipeline.hmdb_recovering SamplePipeline.repeated)
    = Some (hmdb_item (SamplePipeline.hmdb_recovering 2)) /\
  Dict.get "Caffeine" (query_kegg SamplePipeline.kegg_second_only SamplePipeline.repeated)
    = None.
Proof.
  destruct (query_loops_last_write_wins SamplePipeline.hmdb_recovering
              SamplePipeline.kegg_second_only SamplePipeline.repeated) as (_ & _ & L & N).
  split.
  - apply (L 2 "D-Glucose"). split; [reflexivity|].
    intros [|[|[|[|j]]]] Lt; simpl; try discriminate; lia.
  - apply (N "Caffeine"). simpl. intuition discriminate.
Defined.

(** ** The merge *)

(** X12: in a merge, a field has the value of the KEGG record when that
    record has the field, else the value of the HMDB record, else the value
    it had before; and a merge into the empty record lists the HMDB fields
    first, then the KEGG fields that HMDB does not have. *)
Theorem merge_kegg_over_hmdb :
  forall (record hmdb kegg : pydict),
    NoDup (Dict.keys hmdb) ->
    NoDup (Dict.keys kegg) ->
    (forall x,
       Dict.get x (merge record hmdb kegg) =
       match Dict.get x kegg with
       | Some v => Some v
       | None => match Dict.get x hmdb with
                 | Some v => Some v
                 | None => Dict.get x record
                 end
       end) /\
    Dict.keys (merge [] hmdb kegg) =
      Dict.keys hmdb ++ filter (fun y => negb (Dict.mem y hmdb)) (Dict.keys kegg).
Proof.
  intros record hmdb kegg Nh Nk. split.
  - intros x. unfold merge.
    rewrite !DictFacts.get_update, !DictFacts.get_rev_NoDup by assumption.
    reflexivity.
  - unfold merge. rewrite LoopFacts.keys_update, LoopFacts.keys_update_empty.
    rewrite !LoopFacts.uniq_NoDup_id by assumption.
    f_equal. apply filter_ext. intros y. f_equal. unfold Dict.mem.
    rewrite DictFacts.get_update, DictFacts.get_rev_NoDup by assumption.
    destruct (Dict.get y hmdb); reflexivity.
Qed.

Lemma merge_kegg_over_hmdb_witness :
  Dict.keys (merge [] (hmdb_item SamplePipeline.hmdb_down) (kegg_item Sample.kegg_twice)) =
    ["hmdb_status"; "kegg_id"; "type"; "kegg_pathways"; "description"; "kegg_status"].
Proof.
  rewrite (proj2 (merge_kegg_over_hmdb [] (hmdb_item SamplePipeline.hmdb_down)
                    (kegg_item Sample.kegg_twice)
                    ltac:(repeat constructor; simpl; intuition discriminate)
                    ltac:(repeat constructor; simpl; intuition discriminate))).
  reflexivity.
Defined.

(** X13: handling a name a second time changes nothing: classifying a
    classified record returns it as it is, and merging the same two query
    records into the classified row and classifying again gives the same
    row. *)
Theorem repeated_name_row_unchanged :
  forall (hmdb kegg row : pydict),
    ~ In "final_type" (Dict.keys hmdb) ->
    ~ In "final_type" (Dict.keys kegg) ->
    set_final_type (merge [] hmdb kegg) = Ok row ->
    set_final_type row = Ok row /\
    merge row hmdb kegg = row /\
    set_final_type (merge row hmdb kegg) = Ok row.
Proof.
  intros hmdb kegg row Nh Nk H.
  pose proof (set_final_type_idem _ _ H) as I.
  destruct (set_final_type_shape _ _ H) as [v ->].
  rewrite merge_revisit by assumption. auto.
Qed.

Lemma repeated_name_row_unchanged_witness :
  exists row,
    set_final_type (merge [] (hmdb_item (SamplePipeline.hmdb_up 0))
                             (kegg_item Sample.kegg_twice)) = Ok row /\
    set_final_type (merge row (hmdb_item (SamplePipeline.hmdb_up 0))
                              (kegg_item Sample.kegg_twice)) = Ok row.
Proof.
  eexists. split; [reflexivity|].
  refine (proj2 (proj2 (repeated_name_row_unchanged
            (hmdb_item (SamplePipeline.hmdb_up 0)) (kegg_item Sample.kegg_twice) _ _ _ _))).
  - simpl. intuition discriminate.
  - simpl. intuition discriminate.
  - reflexivity.
Defined.

(** ** When the run completes, and what its rows hold *)

Section Rows.
Import Dict DictFacts.

Lemma row_of_last hw kw ms j n :
  last_at ms j n ->
  row_of (query_hmdb hw ms) (query_kegg kw ms) n =
  set_final_type (merge [] (hmdb_item (hw j)) (kegg_item (kw j))).
Proof.
  intros L. unfold row_of, merge. do 3 f_equal.
  - exact (f_equal (fun o => match o with Some v => v | None => [] end)
             (query_hmdb_last hw ms j n L)).
  - exact (f_equal (fun o => match o with Some v => v | None => [] end)
             (query_kegg_last kw ms j n L)).
Qed.

(** The three outcomes of classifying the merge of two query records. *)
Lemma row_outcome (h k : pydict) :
  hmdb_shape h -> kegg_shape k ->
  (exists ty row, get "type" k = Some ty /\ set_final_type (merge [] h k) = Ok row) \/
  (exists s row, get "type" k = None /\
                 get_default "super_class" (VStr "") h = VStr s /\
                 set_final_type (merge [] h k) = Ok row) \/
  (exists v, get "type" k = None /\
             get "super_class" h = Some v /\
             (forall s, v <> VStr s) /\
             set_final_type (merge [] h k) = Raise (no_attribute v "lower")).
Proof.
  intros Sh Sk.
  assert (Nh : NoDup (keys h)) by (apply shape_NoDup_hmdb; auto).
  assert (Nk : NoDup (keys k)) by (apply shape_NoDup_kegg; auto).
  unfold set_final_type.
  rewrite (get_merge_empty h k "type") by assumption.
  rewrite (hmdb_shape_no_type h (or_intror Sh)).
  destruct (get "type" k) as [ty|] eqn:Ht; [left; eauto|right].
  unfold get_default.
  rewrite (get_merge_empty h k "super_class") by assumption.
  rewrite (kegg_shape_no_super_class k (or_intror Sk)).
  destruct (get "super_class" h) as [v|] eqn:Hs.
  - destruct v as [| | |s| |]; cbn [py_lower bind];
      try (right; eexists; repeat split; eauto; discriminate).
    left. exists s.
    destruct (any_in primary_keywords _); [|destruct (any_in secondary_keywords _)]; eauto.
  - left. exists "". cbn [py_lower bind].
    destruct (any_in primary_keywords _); [|destruct (any_in secondary_keywords _)]; eauto.
Qed.

Lemma row_classifiable (h k : pydict) :
  hmdb_shape h -> kegg_shape k ->
  (exists row, set_final_type (merge [] h k) = Ok row) <-> classifiable h k.
Proof.
  intros Sh Sk. unfold classifiable.
  destruct (row_outcome h k Sh Sk)
    as [(ty & row & Ht & R)|[(s & row & Ht & Hs & R)|(v & Ht & Hs & Hv & R)]].
  - split; eauto.
  - split; eauto.
  - split.
    + intros [row C]. congruence.
    + intros [[ty C]|[s C]]; [congruence|].
      unfold get_default in C. rewrite Hs in C. now apply Hv in C.
Qed.
End Rows.

(** X14: [classify_metabolites] returns a table exactly when, for every
    name, the records made at its last occurrence can be classified: the
    KEGG record has a [type], or the super class of the HMDB record is a
    string or absent. *)
Theorem run_completes_iff_classifiable :
  forall hw kw (ms : list string),
    (exists T, classify_metabolites hw kw ms = Ok T) <->
    (forall j n, last_at ms j n ->
                 classifiable (hmdb_item (hw j)) (kegg_item (kw j))).
Proof.
  intros hw kw ms. split.
  - intros [T H] j n L.
    destruct (table_rows _ _ _ _ H) as [_ R].
    destruct (R j n L) as (row & _ & C).
    apply (row_classifiable _ _ (hmdb_item_shape _) (kegg_item_shape _)). eauto.
  - intros H. rewrite classify_metabolites_rows.
    destruct (mapM_total (row_of (query_hmdb hw ms) (query_kegg kw ms)) ms) as [rows M].
    + intros n I. destruct (occurs_last _ _ I) as [j L].
      rewrite (row_of_last hw kw ms j n L).
      apply (row_classifiable _ _ (hmdb_item_shape _) (kegg_item_shape _)). eauto.
    + rewrite M. cbn [bind]. eauto.
Qed.

Lemma run_completes_iff_classifiable_witness :
  (exists T, classify_metabolites SamplePipeline.hmdb_up SamplePipeline.kegg_timeouts
               SamplePipeline.glucose = Ok T) /\
  classifiable (hmdb_item (SamplePipeline.hmdb_up 0))
               (kegg_item (SamplePipeline.kegg_timeouts 0)).
Proof.
  split.
  - apply (proj2 (run_completes_iff_classifiable SamplePipeline.hmdb_up
                    SamplePipeline.kegg_timeouts SamplePipeline.glucose)).
    intros j n L. right. exists "Organic oxygen compounds". reflexivity.
  - apply (proj1 (run_completes_iff_classifiable SamplePipeline.hmdb_up
                    SamplePipeline.kegg_timeouts SamplePipeline.glucose)
             ltac:(eexists; reflexivity) 0 "D-Glucose" (last_at_single "D-Glucose")).
Defined.

(** X15: the only exception that leaves [classify_metabolites] is the
    [AttributeError] of [.lower()] on a super class that is not a string:
    when the function raises, some name has, at its last occurrence, a
    KEGG record without [type] and an HMDB record whose super class is that
    value. *)
Theorem run_aborts_only_on_super_class :
  forall hw kw (ms : list string) (e : exn),
    classify_metabolites hw kw ms = Raise e ->
    exists j n v,
      last_at ms j n /\
      Dict.get "type" (kegg_item (kw j)) = None /\
      Dict.get "super_class" (hmdb_item (hw j)) = Some v /\
      (forall s, v <> VStr s) /\
      e = AttributeError ("'" ++ type_name v ++ "' object has no attribute 'lower'").
Proof.
  intros hw kw ms e. rewrite classify_metabolites_rows.
  destruct (mapM _ ms) as [rows|e'] eqn:M; cbn [bind]; [discriminate|].
  intros [= ->]. apply mapM_raise in M. destruct M as (n & I & R).
  destruct (occurs_last _ _ I) as [j L]. rewrite (row_of_last hw kw ms j n L) in R.
  destruct (row_outcome _ _ (hmdb_item_shape (hw j)) (kegg_item_shape (kw j)))
    as [(ty & row & Ht & C)|[(s & row & Ht & Hs & C)|(v & Ht & Hs & Hv & C)]];
    try congruence.
  exists j, n, v.
  split; [exact L|]. split; [exact Ht|]. split; [exact Hs|]. split; [exact Hv|].
  assert (Q : Raise (A := pydict) e = Raise (no_attribute v "lower"))
    by (rewrite <- R; exact C).
  injection Q as ->. reflexivity.
Qed.

Lemma run_aborts_only_on_super_class_witness :
  exists j n v,
    last_at SamplePipeline.glucose j n /\
    Dict.get "type" (kegg_item (SamplePipeline.kegg_timeouts j)) = None /\
    Dict.get "super_class" (hmdb_item (SamplePipeline.hmdb_empty_super_class j)) = Some v /\
    (forall s, v <> VStr s) /\
    AttributeError "'NoneType' object has no attribute 'lower'" =
    AttributeError ("'" ++ type_name v ++ "' object has no attribute 'lower'").
Proof.
  apply (run_aborts_only_on_super_class SamplePipeline.hmdb_empty_super_class
           SamplePipeline.kegg_timeouts SamplePipeline.glucose).
  reflexivity.
Defined.

(** X16: in a table that is returned, every row carries [hmdb_status],
    [kegg_status] and a [final_type] that is one of [primary], [secondary],
    [unknown]; apart from [final_type], a field of the row has the value of
    the KEGG record made at the last occurrence of the name when that
    record has the field, and else the value of the HMDB record. *)
Theorem row_fields_from_last_records :
  forall hw kw (ms : list string) (T : Dict.t pydict) (n : string) (row : pydict),
    classify_metabolites hw kw ms = Ok T ->
    Dict.get n T = Some row ->
    exists j,
      last_at ms j n /\
      (exists ft, Dict.get "final_type" row = Some ft /\ In ft final_types) /\
      (exists s, Dict.get "hmdb_status" row = Some (VStr s)) /\
      (exists s, Dict.get "kegg_status" row = Some (VStr s)) /\
      (forall x, x <> "final_type" ->
         Dict.get x row =
         match Dict.get x (kegg_item (kw j)) with
         | Some v => Some v
         | None => Dict.get x (hmdb_item (hw j))
         end).
Proof.
  intros hw kw ms T n row H G.
  destruct (table_rows _ _ _ _ H) as [K R].
  assert (I : In n ms).
  { apply LoopFacts.uniq_in. rewrite <- K. eapply DictFacts.get_Some_keys; eauto. }
  destruct (occurs_last _ _ I) as [j L]. exists j. split; [exact L|].
  destruct (R j n L) as (row' & G' & C).
  assert (row' = row) by congruence. subst row'.
  pose proof (hmdb_item_shape (hw j)) as Sh. pose proof (kegg_item_shape (kw j)) as Sk.
  assert (F : forall x, x <> "final_type" ->
            Dict.get x row =
            match Dict.get x (kegg_item (kw j)) with
            | Some v => Some v
            | None => Dict.get x (hmdb_item (hw j))
            end).
  { intros x N. rewrite (set_final_type_keeps _ _ x C N).
    apply get_merge_empty; [apply shape_NoDup_hmdb | apply shape_NoDup_kegg]; auto. }
  split; [|split; [|split]]; auto.
  - apply (table_final_types _ _ _ _ _ _ H G).
  - rewrite F by discriminate.
    destruct Sh as [(s & ->)|(a & b & c & d & e & ->)];
      destruct Sk as [(s' & ->)|(a' & b' & c' & d' & _ & ->)]; simpl; eauto.
  - rewrite F by discriminate.
    destruct Sk as [(s' & ->)|(a' & b' & c' & d' & _ & ->)]; simpl; eauto.
Qed.

Lemma row_fields_from_last_records_witness :
  exists T row,
    classify_metabolites SamplePipeline.hmdb_recovering SamplePipeline.kegg_second_only
      SamplePipeline.repeated = Ok T /\
    Dict.get "D-Glucose" T = Some row /\
    exists j,
      last_at SamplePipeline.repeated j "D-Glucose" /\
      (exists ft, Dict.get "final_type" row = Some ft /\ In ft final_types) /\
      (exists s, Dict.get "hmdb_status" row = Some (VStr s)) /\
      (exists s, Dict.get "kegg_status" row = Some (VStr s)) /\
      (forall x, x <> "final_type" ->
         Dict.get x row =
         match Dict.get x (kegg_item (SamplePipeline.kegg_second_only j)) with
         | Some v => Some v
         | None => Dict.get x (hmdb_item (SamplePipeline.hmdb_recovering j))
         end).
Proof.
  do 2 eexists. split; [reflexivity|]. split; [reflexivity|].
  refine (row_fields_from_last_records SamplePipeline.hmdb_recovering
            SamplePipeline.kegg_second_only SamplePipeline.repeated _ "D-Glucose" _ _ _);
    reflexivity.
Defined.

(** ** The size of the table *)

Lemma filter_length {A} (p : A -> bool) l : length (filter p l) <= length l.
Proof. induction l as [|a l IH]; simpl; [lia|]. destruct (p a); simpl; lia. Qed.

Lemma filter_length_all {A} (p : A -> bool) l :
  length (filter p l) = length l -> forall x, In x l -> p x = true.
Proof.
  induction l as [|a l IH]; simpl; [tauto|].
  pose proof (filter_length p l) as B.
  destruct (p a) eqn:E; simpl; intros H x [->|I]; auto; try lia.
Qed.

Lemma uniq_length l : length (uniq l) <= length l.
Proof.
  induction l as [|a l IH]; simpl; [lia|].
  pose proof (filter_length (fun y => negb (String.eqb y a)) (uniq l)). lia.
Qed.

Lemma uniq_length_NoDup l : length (uniq l) = length l -> NoDup l.
Proof.
  induction l as [|a l IH]; simpl; [constructor|].
  intros H.
  pose proof (filter_length (fun y => negb (String.eqb y a)) (uniq l)) as B.
  pose proof (uniq_length l) as U.
  assert (E : length (uniq l) = length l) by lia.
  constructor; [|auto].
  intros I. apply LoopFacts.uniq_in in I.
  assert (F : length (filter (fun y => negb (String.eqb y a)) (uniq l)) = length (uniq l))
    by lia.
  pose proof (filter_length_all _ _ F a I) as C. cbv beta in C.
  now rewrite String.eqb_refl in C.
Qed.

(** X17: the table never has more rows than the input has names, and it
    has as many exactly when no name is repeated. *)
Theorem table_row_count :
  forall hw kw (ms : list string) (T : Dict.t pydict),
    classify_metabolites hw kw ms = Ok T ->
    length T <= length ms /\ (length T = length ms <-> NoDup ms).
Proof.
  intros hw kw ms T H. destruct (table_rows _ _ _ _ H) as [K _].
  assert (E : length T = length (uniq ms)).
  { rewrite <- K. unfold Dict.keys. now rewrite length_map. }
  rewrite E. split; [apply uniq_length|]. split.
  - apply uniq_length_NoDup.
  - intros N. now rewrite LoopFacts.uniq_NoDup_id.
Qed.

Lemma table_row_count_witness :
  exists T,
    classify_metabolites SamplePipeline.hmdb_recovering SamplePipeline.kegg_second_only
      SamplePipeline.repeated = Ok T /\
    length T <= 3 /\ ~ NoDup SamplePipeline.repeated.
Proof.
  eexists. split; [reflexivity|].
  destruct (table_row_count SamplePipeline.hmdb_recovering SamplePipeline.kegg_second_only
              SamplePipeline.repeated _ eq_refl) as [L [_ N]].
  split; [exact L|].
  intros D. apply N in D. discriminate D.
Defined.

(** ** A [pathway] value that is text *)

Lemma no_dict_among_characters l :
  filter is_dict (map (fun c => VStr (String c EmptyString)) l) = [].
Proof. induction l as [|c l IH]; simpl; auto. Qed.

(** X19: when the [pathway] value of a document is text, the record is
    [Found] with an empty pathway list: the text is walked character by
    character and no character is an object. *)
Theorem hmdb_pathway_text_gives_no_name :
  forall (w : hmdb_responses) (r : response (result pyval)) data info c pw (text : string),
    truthy (search_hmdb_id (hmdb_search w)) = true ->
    hmdb_detail w = Ok r ->
    raise_for_status r = Ok tt ->
    body r = Ok (VDict data) ->
    Dict.get_default "metabolite" (VDict []) data = VDict info ->
    Dict.get_default "classification" (VDict []) info = VDict c ->
    Dict.get "pathways" info = Some (VDict pw) ->
    Dict.get "pathway" pw = Some (VStr text) ->
    Dict.get "hmdb_pathways" (hmdb_item w) = Some (VList []) /\
    Dict.get "hmdb_status" (hmdb_item w) = Some (VStr "Found").
Proof.
  intros w r data info c pw text Hid Hd Hs Hb Hm Hc Hpw Hp.
  rewrite (hmdb_item_document w r data info c pw Hid Hd Hs Hb Hm Hc).
  - unfold Dict.get_default. rewrite Hp.
    unfold pathway_names. cbn [normalize_pathways is_dict py_iter bind].
    rewrite no_dict_among_characters. split; reflexivity.
  - unfold Dict.get_default. now rewrite Hpw.
Qed.

Lemma hmdb_pathway_text_gives_no_name_witness :
  Dict.get "hmdb_pathways"
    (hmdb_item (SampleHmdb.found
       (VDict [("metabolite",
                VDict [("pathways", VDict [("pathway", VStr "Glycolysis")])])])))
  = Some (VList []).
Proof.
  apply (proj1 (hmdb_pathway_text_gives_no_name
           (SampleHmdb.found
              (VDict [("metabolite",
                       VDict [("pathways", VDict [("pathway", VStr "Glycolysis")])])]))
           (mkResponse 200%Z "" ""
              (Ok (VDict [("metabolite",
                           VDict [("pathways", VDict [("pathway", VStr "Glycolysis")])])])))
           _ _ [] _ "Glycolysis"
           eq_refl eq_refl eq_refl eq_refl eq_refl eq_refl eq_refl eq_refl)).
Defined.

(** * The table of line 177 *)

(** ** Lists of labels *)

Module LabelFacts.

Lemma first_seen_uniq l : first_seen l = uniq l.
Proof. induction l as [|a l IH]; simpl; congruence. Qed.

Lemma inb_In y l : existsb (String.eqb y) l = true <-> In y l.
Proof.
  rewrite existsb_exists. split.
  - intros (x & I & E). apply String.eqb_eq in E. now subst.
  - intros I. exists y. split; auto. apply String.eqb_refl.
Qed.

Lemma inb_false y l : existsb (String.eqb y) l = false <-> ~ In y l.
Proof.
  rewrite <- inb_In. destruct (existsb (String.eqb y) l); split;
    intros; try tauto; try discriminate; try congruence.
Qed.

Lemma filter_none {A} (p : A -> bool) l :
  (forall x, In x l -> p x = false) -> filter p l = [].
Proof.
  induction l as [|a l IH]; simpl; auto. intros H.
  rewrite (H a) by auto. apply IH. auto.
Qed.

Lemma uniq_app a b :
  uniq (a ++ b) = uniq a ++ filter (fun y => negb (existsb (String.eqb y) a)) (uniq b).
Proof.
  induction a as [|x a IH]; simpl.
  - symmetry. apply forallb_filter_id. now apply forallb_forall.
  - rewrite IH, filter_app, LoopFacts.filter_filter. do 2 f_equal.
    apply filter_ext. intros y. destruct (String.eqb y x); simpl.
    + apply andb_false_r.
    + apply andb_true_r.
Qed.

(** Labels that were seen before add nothing. *)
Lemma uniq_app_absorb a b : (forall x, In x b -> In x a) -> uniq (a ++ b) = uniq a.
Proof.
  intros H. rewrite uniq_app, filter_none; [apply app_nil_r|].
  intros x I. apply LoopFacts.uniq_in, H, inb_In in I. now rewrite I.
Qed.

End LabelFacts.

(** ** The transposition *)

Module FrameFacts.
Import Dict DictFacts.

#[local] Set Warnings "-notation-for-abbreviation".
Notation column c nd := (get_default c [] nd).
Notation has c := (fun r : string * pydict => existsb (String.eqb c) (keys (snd r))).
Notation rows_with c data := (map fst (filter (has c) data)).

Lemma mem_set {V} y k (v : V) d : mem y (set k v d) = String.eqb y k || mem y d.
Proof. unfold mem. rewrite get_set. now destruct (String.eqb y k). Qed.

Lemma mem_inb {V} y (d : Dict.t V) : mem y d = existsb (String.eqb y) (keys d).
Proof.
  destruct (existsb (String.eqb y) (keys d)) eqn:E.
  - apply LabelFacts.inb_In in E. now apply mem_keys.
  - apply LabelFacts.inb_false in E. destruct (mem y d) eqn:M; auto.
    apply mem_keys in M. tauto.
Qed.

Lemma column_nested_set c nd n c' v :
  column c (nested_set nd n c' v) =
  if String.eqb c c' then set n v (column c' nd) else column c nd.
Proof.
  unfold nested_set, get_default at 1. rewrite get_set.
  destruct (String.eqb c c'); reflexivity.
Qed.

Lemma keys_add_row row : forall nd n,
  keys (add_row nd n row) = keys nd ++ filter (fun y => negb (mem y nd)) (uniq (keys row)).
Proof.
  induction row as [|[c v] row IH]; intros nd n.
  - simpl. now rewrite app_nil_r.
  - change (add_row nd n ((c, v) :: row)) with (add_row (nested_set nd n c v) n row).
    rewrite IH. cbn [keys map fst uniq filter]. fold (keys row).
    rewrite LoopFacts.filter_filter. unfold nested_set at 1. rewrite keys_set.
    assert (M : forall y, mem y (nested_set nd n c v) = String.eqb y c || mem y nd)
      by (intros y; apply mem_set).
    destruct (mem c nd) eqn:E; cbn [negb].
    + apply f_equal. apply filter_ext. intros y. rewrite M.
      destruct (String.eqb y c); simpl; auto.
    + rewrite <- app_assoc. simpl. do 2 apply f_equal.
      apply filter_ext. intros y. rewrite M.
      destruct (String.eqb y c); simpl; auto.
Qed.

Lemma mem_add_row nd n row y :
  mem y (add_row nd n row) = mem y nd || existsb (String.eqb y) (keys row).
Proof.
  rewrite (mem_inb y (add_row nd n row)), keys_add_row, existsb_app, <- mem_inb.
  destruct (mem y nd) eqn:E; simpl; auto.
  destruct (existsb (String.eqb y) (keys row)) eqn:R.
  - apply LabelFacts.inb_In. apply filter_In. rewrite E. split; auto.
    apply LoopFacts.uniq_in. now apply LabelFacts.inb_In.
  - apply LabelFacts.inb_false. rewrite filter_In, LoopFacts.uniq_in.
    apply LabelFacts.inb_false in R. tauto.
Qed.

Lemma keys_rows data : forall nd,
  keys (fold_left (fun nd r => add_row nd (fst r) (snd r)) data nd) =
  keys nd ++ filter (fun y => negb (mem y nd))
                    (uniq (concat (map (fun r : string * pydict => keys (snd r)) data))).
Proof.
  induction data as [|[n row] data IH]; intros nd.
  - simpl. now rewrite app_nil_r.
  - cbn [fold_left map concat fst snd]. rewrite IH, keys_add_row, LabelFacts.uniq_app.
    rewrite filter_app, LoopFacts.filter_filter, <- app_assoc. do 2 f_equal.
    apply filter_ext. intros y. rewrite mem_add_row.
    destruct (mem y nd); destruct (existsb (String.eqb y) (keys row)); reflexivity.
Qed.

(** The columns are the fields of the rows, in the order in which they
    first appear. *)
Lemma keys_from_nested_dict data :
  keys (from_nested_dict data) =
  uniq (concat (map (fun r : string * pydict => keys (snd r)) data)).
Proof.
  unfold from_nested_dict. rewrite keys_rows. simpl.
  apply forallb_filter_id. now apply forallb_forall.
Qed.

Lemma column_keys_add_row c n row : forall nd,
  keys (column c (add_row nd n row)) =
  if existsb (String.eqb c) (keys row)
  then keys (set n VNone (column c nd))
  else keys (column c nd).
Proof.
  induction row as [|[c' v'] row IH]; intros nd; [reflexivity|].
  change (add_row nd n ((c', v') :: row)) with (add_row (nested_set nd n c' v') n row).
  rewrite IH, column_nested_set. cbn [keys map fst existsb]. fold (keys row).
  destruct (String.eqb c c') eqn:E; cbn [orb]; [|reflexivity].
  apply String.eqb_eq in E. subst c'.
  destruct (existsb (String.eqb c) (keys row)).
  - rewrite keys_set_in; [now rewrite !keys_set|].
    apply in_keys_set. now left.
  - now rewrite !keys_set.
Qed.

(** A column lists the rows that have its field, in the order of the
    rows. *)
Lemma column_keys_rows c data : forall nd,
  NoDup (keys data) ->
  (forall n, In n (keys data) -> ~ In n (keys (column c nd))) ->
  keys (column c (fold_left (fun nd r => add_row nd (fst r) (snd r)) data nd)) =
  keys (column c nd) ++ rows_with c data.
Proof.
  induction data as [|[n row] data IH]; intros nd N F.
  - simpl. now rewrite app_nil_r.
  - cbn [fold_left fst snd filter]. inversion N as [|? ? Hn Hd]; subst.
    assert (Fn : ~ In n (keys (column c nd))) by (apply F; now left).
    rewrite IH; auto.
    + rewrite column_keys_add_row. cbn [snd].
      destruct (existsb (String.eqb c) (keys row)); [|reflexivity].
      rewrite keys_set.
      assert (M : mem n (column c nd) = false).
      { destruct (mem n (column c nd)) eqn:M; auto. apply mem_keys in M. tauto. }
      rewrite M, <- app_assoc. reflexivity.
    + intros m I. rewrite column_keys_add_row.
      assert (m <> n) by (intros ->; tauto).
      assert (~ In m (keys (column c nd))) by (apply F; now right).
      destruct (existsb (String.eqb c) (keys row)); auto.
      rewrite in_keys_set. tauto.
Qed.

Lemma column_get_add_row c m n row : forall nd,
  NoDup (keys row) ->
  get m (column c (add_row nd n row)) =
  if String.eqb m n
  then match get c row with Some v => Some v | None => get m (column c nd) end
  else get m (column c nd).
Proof.
  induction row as [|[c' v'] row IH]; intros nd N.
  - simpl. now destruct (String.eqb m n).
  - change (add_row nd n ((c', v') :: row)) with (add_row (nested_set nd n c' v') n row).
    inversion N as [|? ? Hn Hd]; subst.
    rewrite IH, column_nested_set by assumption. cbn [get].
    destruct (String.eqb c c') eqn:E.
    + apply String.eqb_eq in E. subst c'.
      assert (G : get c row = None) by now apply get_None_keys.
      rewrite G, get_set. now destruct (String.eqb m n).
    + reflexivity.
Qed.

(** A cell holds the field of its row. *)
Lemma column_get_rows c m data : forall nd,
  NoDup (keys data) ->
  (forall r, In r data -> NoDup (keys (snd r))) ->
  get m (column c (fold_left (fun nd r => add_row nd (fst r) (snd r)) data nd)) =
  match get m data with
  | Some row => match get c row with Some v => Some v | None => get m (column c nd) end
  | None => get m (column c nd)
  end.
Proof.
  induction data as [|[n row] data IH]; intros nd N R; [reflexivity|].
  cbn [fold_left fst snd get]. inversion N as [|? ? Hn Hd]; subst.
  rewrite IH; auto; [|intros r I; apply R; now right].
  assert (Rn : NoDup (keys row)) by (apply (R (n, row)); now left).
  destruct (String.eqb m n) eqn:E.
  - apply String.eqb_eq in E. subst m.
    assert (G : get n data = None) by now apply get_None_keys.
    rewrite G, column_get_add_row, String.eqb_refl by assumption. reflexivity.
  - destruct (get m data) as [row'|].
    + destruct (get c row'); auto. rewrite column_get_add_row, E by assumption. reflexivity.
    + rewrite column_get_add_row, E by assumption. reflexivity.
Qed.

Lemma column_lists (nd : Dict.t pydict) :
  NoDup (keys nd) ->
  map (fun col : string * pydict => keys (snd col)) nd =
  map (fun c => keys (column c nd)) (keys nd).
Proof.
  induction nd as [|[k v] d IH]; intros N; [reflexivity|].
  inversion N as [|? ? Hn Hd]; subst. cbn [map fst snd keys]. f_equal.
  - unfold get_default. simpl. now rewrite String.eqb_refl.
  - rewrite IH by assumption. apply map_ext_in. intros c I.
    unfold get_default. simpl.
    destruct (String.eqb c k) eqn:E; auto.
    apply String.eqb_eq in E. subst. contradiction.
Qed.

(** The three parts of the table in terms of the rows. *)
Lemma frame_of_rows data :
  NoDup (keys data) ->
  (forall r, In r data -> NoDup (keys (snd r))) ->
  let df := DataFrame_from_dict data in
  df_columns df = uniq (concat (map (fun r : string * pydict => keys (snd r)) data)) /\
  df_index df = uniq (concat (map (fun c => rows_with c data) (df_columns df))) /\
  forall n c, df_at df n c =
              match get n data with Some row => get c row | None => None end.
Proof.
  intros N R df. subst df. unfold DataFrame_from_dict, df_at.
  cbn [df_columns df_index df_cells].
  split; [apply keys_from_nested_dict|]. split.
  - unfold union_indexes. rewrite LabelFacts.first_seen_uniq. do 2 f_equal.
    assert (Nk : NoDup (keys (from_nested_dict data)))
      by (rewrite keys_from_nested_dict; apply LoopFacts.uniq_NoDup).
    etransitivity; [apply column_lists; exact Nk|].
    apply map_ext. intros c. unfold from_nested_dict.
    rewrite column_keys_rows; auto.
  - intros n c. unfold from_nested_dict. rewrite column_get_rows by assumption.
    destruct (get n data) as [row|]; auto. destruct (get c row); auto.
Qed.

(** When one column before which the columns [pre] stand holds every row,
    the index is what [pre] lists, followed by the other rows in order. *)
Lemma index_with_full_column data pre full post :
  NoDup (keys data) ->
  rows_with full data = keys data ->
  let seen := concat (map (fun c => rows_with c data) pre) in
  uniq (concat (map (fun c => rows_with c data) (pre ++ full :: post))) =
  uniq seen ++ filter (fun n => negb (existsb (String.eqb n) seen)) (keys data).
Proof.
  intros N F seen. rewrite map_app, concat_app. cbn [map concat]. fold seen.
  rewrite LabelFacts.uniq_app, F. f_equal. f_equal.
  rewrite LabelFacts.uniq_app_absorb; [now apply LoopFacts.uniq_NoDup_id|].
  intros x I. apply in_concat in I. destruct I as (l & Il & Ix).
  apply in_map_iff in Il. destruct Il as (c & <- & _).
  apply in_map_iff in Ix. destruct Ix as (r & <- & Ir).
  apply filter_In in Ir. apply in_map. tauto.
Qed.

End FrameFacts.

(** ** The rows that [classify_metabolites] hands over *)

Section TableShape.
Import Dict DictFacts.

Lemma in_get {V} (d : Dict.t V) k v : NoDup (keys d) -> In (k, v) d -> get k d = Some v.
Proof.
  induction d as [|[x w] d IH]; intros N I; [contradiction|].
  inversion N as [|? ? Hn Hd]; subst. simpl. destruct I as [[= -> ->]|I].
  - now rewrite String.eqb_refl.
  - destruct (String.eqb k x) eqn:E; auto.
    apply String.eqb_eq in E. subst. contradiction Hn.
    change x with (fst (x, v)). now apply in_map.
Qed.

(** Every row of the dict is the classified merge of the two records made
    at the last occurrence of its name. *)
Lemma table_entry hw kw ms T n row :
  classify_metabolites hw kw ms = Ok T ->
  In (n, row) T ->
  exists j v,
    last_at ms j n /\
    row = set "final_type" v (merge [] (hmdb_item (hw j)) (kegg_item (kw j))).
Proof.
  intros H I. destruct (table_rows _ _ _ _ H) as [K R].
  assert (N : NoDup (keys T)) by (rewrite K; apply LoopFacts.uniq_NoDup).
  assert (Im : In n ms).
  { apply LoopFacts.uniq_in. rewrite <- K. change n with (fst (n, row)). now apply in_map. }
  destruct (occurs_last _ _ Im) as [j L]. destruct (R j n L) as (row' & G & C).
  assert (row' = row) by (apply (in_get _ _ _ N) in I; congruence). subst row'.
  destruct (set_final_type_shape _ _ C) as [v ->]. eauto.
Qed.

Lemma shaped_row_keys (h k : pydict) v :
  hmdb_shape h -> kegg_shape k ->
  keys (set "final_type" v (merge [] h k)) = keys h ++ keys k ++ ["final_type"].
Proof.
  intros [(s & ->)|(a & b & c & d & e & ->)] [(s' & ->)|(a' & b' & c' & d' & _ & ->)];
    reflexivity.
Qed.

Lemma shaped_row_NoDup (h k : pydict) v :
  NoDup (keys (set "final_type" v (merge [] h k))).
Proof.
  apply NoDup_keys_set. unfold merge. apply NoDup_keys_update, NoDup_keys_update.
  constructor.
Qed.

(** The fields of a row: the five HMDB data fields when the row has an
    [hmdb_id], then [hmdb_status], then the rest. *)
Lemma shaped_row_fields (h k : pydict) v :
  hmdb_shape h -> kegg_shape k ->
  let row := set "final_type" v (merge [] h k) in
  exists rest,
    keys row =
    (if mem "hmdb_id" row
     then ["hmdb_id"; "super_class"; "class"; "sub_class"; "hmdb_pathways"] else [])
    ++ "hmdb_status" :: rest /\
    forall c, In c ["hmdb_id"; "super_class"; "class"; "sub_class"; "hmdb_pathways"] ->
              existsb (String.eqb c) (keys row) = mem "hmdb_id" row.
Proof.
  intros [(s & ->)|(a & b & c & d & e & ->)] [(s' & ->)|(a' & b' & c' & d' & _ & ->)];
    cbv zeta; eexists; (split; [reflexivity|]);
    intros x I; simpl in I;
    repeat (destruct I as [<-|I]; [reflexivity|]); contradiction.
Qed.

Lemma rows_with_filter (p : pydict -> bool) (T : Dict.t pydict) :
  NoDup (keys T) ->
  map fst (filter (fun r => p (snd r)) T) =
  filter (fun n => p (get_default n [] T)) (keys T).
Proof.
  induction T as [|[k row] T IH]; intros N; [reflexivity|].
  inversion N as [|? ? Hn Hd]; subst. cbn [filter map fst snd keys].
  assert (E : get_default k [] ((k, row) :: T) = row).
  { unfold get_default. simpl. now rewrite String.eqb_refl. }
  rewrite E.
  assert (F : filter (fun n => p (get_default n [] ((k, row) :: T))) (map fst T) =
              filter (fun n => p (get_default n [] T)) (map fst T)).
  { apply filter_ext_in. intros n I. unfold get_default. simpl.
    destruct (String.eqb n k) eqn:Q; auto.
    apply String.eqb_eq in Q. subst. contradiction. }
  rewrite F. fold (keys T). rewrite <- IH by assumption.
  destruct (p row); reflexivity.
Qed.
End TableShape.

(** ** The order of the rows of the table *)

Section RowOrder.
Import Dict DictFacts.

Variables (hw : nat -> hmdb_responses) (kw : nat -> kegg_responses).
Variables (ms : list string) (T : Dict.t pydict).
Hypothesis returned : classify_metabolites hw kw ms = Ok T.

Lemma table_NoDup : NoDup (keys T).
Proof.
  destruct (table_rows _ _ _ _ returned) as [K _]. rewrite K. apply LoopFacts.uniq_NoDup.
Qed.

Lemma table_rows_NoDup : forall r, In r T -> NoDup (keys (snd r)).
Proof.
  intros [n row] I. destruct (table_entry _ _ _ _ _ _ returned I) as (j & v & _ & ->).
  apply shaped_row_NoDup.
Qed.

Lemma table_row_fields n row :
  In (n, row) T ->
  exists rest,
    keys row =
    (if mem "hmdb_id" row
     then ["hmdb_id"; "super_class"; "class"; "sub_class"; "hmdb_pathways"] else [])
    ++ "hmdb_status" :: rest /\
    forall c, In c ["hmdb_id"; "super_class"; "class"; "sub_class"; "hmdb_pathways"] ->
              existsb (String.eqb c) (keys row) = mem "hmdb_id" row.
Proof.
  intros I. destruct (table_entry _ _ _ _ _ _ returned I) as (j & v & _ & ->).
  apply shaped_row_fields; [apply hmdb_item_shape | apply kegg_item_shape].
Qed.

(** Every row has [hmdb_status]. *)
Lemma status_column_full :
  map fst (filter (fun r : string * pydict =>
                     existsb (String.eqb "hmdb_status") (keys (snd r))) T) = keys T.
Proof.
  unfold keys. f_equal. apply forallb_filter_id. apply forallb_forall.
  intros [n row] I. destruct (table_row_fields n row I) as (rest & K & _).
  cbv beta. cbn [snd]. apply LabelFacts.inb_In.
  unfold keys in K |- *. rewrite K. apply in_or_app. right. now left.
Qed.

(** The column of an HMDB data field lists the rows that have an
    [hmdb_id]. *)
Lemma data_column c :
  In c ["hmdb_id"; "super_class"; "class"; "sub_class"; "hmdb_pathways"] ->
  map fst (filter (fun r : string * pydict =>
                     existsb (String.eqb c) (keys (snd r))) T) =
  filter (has_hmdb_id T) (keys T).
Proof.
  intros I. unfold has_hmdb_id.
  rewrite <- (rows_with_filter (mem "hmdb_id") T table_NoDup). f_equal.
  apply filter_ext_in. intros [n row] Ir.
  destruct (table_row_fields n row Ir) as (rest & _ & F). cbn [snd]. now apply F.
Qed.

Lemma frame_index_order : df_index (DataFrame_from_dict T) = row_order T (keys T).
Proof.
  destruct (FrameFacts.frame_of_rows T table_NoDup table_rows_NoDup) as (C & X & _).
  rewrite X, C. clear X C.
  assert (D : T = [] \/ exists n1 r1 T', T = (n1, r1) :: T')
    by (clear; destruct T as [|[n1 r1] T']; eauto).
  destruct D as [E|(n1 & r1 & T' & ET)]; [rewrite E; reflexivity|].
  assert (I1 : In (n1, r1) T) by (rewrite ET; now left).
  destruct (table_row_fields n1 r1 I1) as (rest & K1 & _).
  assert (H1 : has_hmdb_id T n1 = mem "hmdb_id" r1).
  { unfold has_hmdb_id, get_default. rewrite ET. simpl. now rewrite String.eqb_refl. }
  assert (Cols : exists post,
            uniq (concat (map (fun r : string * pydict => keys (snd r)) T)) =
            (if mem "hmdb_id" r1
             then ["hmdb_id"; "super_class"; "class"; "sub_class"; "hmdb_pathways"]
             else []) ++ "hmdb_status" :: post).
  { assert (Q : uniq (concat (map (fun r : string * pydict => keys (snd r)) T)) =
                keys r1 ++
                filter (fun y => negb (existsb (String.eqb y) (keys r1)))
                       (uniq (concat (map (fun r : string * pydict => keys (snd r)) T')))).
    { rewrite ET. cbn [map concat snd]. rewrite LabelFacts.uniq_app.
      now rewrite LoopFacts.uniq_NoDup_id by (apply (table_rows_NoDup _ I1)). }
    rewrite Q. unfold keys in K1 |- *. rewrite K1, <- app_assoc. cbn [app]. eauto. }
  destruct Cols as [post ->].
  rewrite (FrameFacts.index_with_full_column T _ "hmdb_status" post
             table_NoDup status_column_full).
  assert (EK : keys T = n1 :: keys T') by (rewrite ET; reflexivity).
  unfold row_order. rewrite EK, H1, <- EK.
  destruct (mem "hmdb_id" r1).
  - cbn [map concat]. rewrite !data_column by (simpl; tauto).
    set (A := filter (has_hmdb_id T) (keys T)). rewrite app_nil_r.
    assert (NA : NoDup A) by (apply NoDup_filter, table_NoDup).
    f_equal.
    + rewrite LabelFacts.uniq_app_absorb; [now apply LoopFacts.uniq_NoDup_id|].
      intros x Ix. rewrite !in_app_iff in Ix. tauto.
    + apply filter_ext_in. intros n In_. f_equal.
      destruct (has_hmdb_id T n) eqn:Hh.
      * apply LabelFacts.inb_In. apply in_or_app. left.
        apply filter_In. auto.
      * apply LabelFacts.inb_false. intros Ix.
        assert (In n A) by (rewrite !in_app_iff in Ix; tauto).
        apply filter_In in H. destruct H. congruence.
  - cbn [map concat uniq app existsb negb].
    apply forallb_filter_id. now apply forallb_forall.
Qed.

Lemma row_order_In (names : list string) n : In n (row_order T names) <-> In n names.
Proof.
  unfold row_order. destruct names as [|first rest]; [tauto|].
  destruct (has_hmdb_id T first); [|tauto].
  rewrite in_app_iff, !filter_In.
  destruct (has_hmdb_id T n); simpl; intuition discriminate.
Qed.
End RowOrder.

(** ** The table that [classify_metabolites] returns *)

Section ReturnedTable.
Import Dict DictFacts.

Lemma hmdb_item_found w :
  mem "hmdb_id" (hmdb_item w) = true <->
  get "hmdb_status" (hmdb_item w) = Some (VStr "Found").
Proof.
  unfold hmdb_item.
  destruct (negb (truthy (search_hmdb_id (hmdb_search w)))).
  - simpl. split; discriminate.
  - destruct (hmdb_fetch _ w) as [r|e] eqn:F.
    + unfold hmdb_fetch in F. bind_ok F. injection F as <-. simpl. tauto.
    + simpl. split; discriminate.
Qed.

Lemma row_has_id (h k : pydict) v :
  hmdb_shape h -> kegg_shape k ->
  mem "hmdb_id" (set "final_type" v (merge [] h k)) = mem "hmdb_id" h.
Proof.
  intros [(s & ->)|(a & b & c & d & e & ->)] [(s' & ->)|(a' & b' & c' & d' & _ & ->)];
    reflexivity.
Qed.

Lemma subsequence_filter {A} (p : A -> bool) l : subsequence (filter p l) l.
Proof.
  induction l as [|a l IH]; simpl; [constructor|].
  destruct (p a); now constructor.
Qed.

Lemma row_order_first_occurrence (T : Dict.t pydict) (names : list string) :
  has_hmdb_id T (hd "" names) = false \/
  (forall n, In n names -> has_hmdb_id T n = true) ->
  row_order T names = names.
Proof.
  unfold row_order. destruct names as [|first rest]; [reflexivity|].
  cbn [hd]. intros [-> | H]; [reflexivity|].
  rewrite (H first) by now left.
  rewrite forallb_filter_id by (apply forallb_forall; exact H).
  rewrite LabelFacts.filter_none; [apply app_nil_r|].
  intros x I. now rewrite (H x I).
Qed.

Lemma hd_uniq (l : list string) : hd "" (uniq l) = hd "" l.
Proof. now destruct l. Qed.

Lemma table_cell hw kw ms (T : Dict.t pydict) n c :
  classify_metabolites hw kw ms = Ok T ->
  (forall row, get n T = Some row -> df_at (DataFrame_from_dict T) n c = get c row) /\
  (get n T = None -> df_at (DataFrame_from_dict T) n c = None).
Proof.
  intros E.
  destruct (FrameFacts.frame_of_rows T (table_NoDup hw kw ms T E)
              (table_rows_NoDup hw kw ms T E)) as (_ & _ & A).
  split.
  - intros row G. rewrite A.
    exact (f_equal (fun o => match o with Some r => get c r | None => None end) G).
  - intros G. rewrite A.
    exact (f_equal (fun o => match o with Some r => get c r | None => None end) G).
Qed.
End ReturnedTable.

(** C3, as the specification words it, fails: with three names of which
    HMDB has the first and the third, the rows of the table are the first,
    the third, the second; and on the input of the empty super class no
    table is returned. *)
Lemma table_rows_out_of_input_order :
  (exists df,
     classify_metabolites_table SampleTable.hmdb_first_and_third
       SamplePipeline.kegg_timeouts SampleTable.names = Ok df /\
     df_index df = ["Alanine"; "Citrate"; "Betaine"] /\
     df_index df <> uniq SampleTable.names) /\
  classify_metabolites_table SamplePipeline.hmdb_empty_super_class
    SamplePipeline.kegg_timeouts SamplePipeline.glucose
  = Raise (AttributeError "'NoneType' object has no attribute 'lower'").
Proof.
  split; [|reflexivity].
  eexists. split; [reflexivity|]. split; [reflexivity|]. discriminate.
Qed.

(** C3, amended: when [classify_metabolites] returns a table for a
    non-empty input, the table has one row per distinct input name, and the
    cells of a row are the fields of the classified merge of the records
    made at the last occurrence of the name. The rows stand in the order of
    first occurrence in the input when the first name has no [Found] HMDB
    record, or when every name has one; else the names with a [Found] HMDB
    record come first and the others after them, each group in the order of
    first occurrence. *)
Theorem table_rows_found_first :
  forall hw kw (ms : list string) (df : DataFrame),
    ms <> [] ->
    classify_metabolites_table hw kw ms = Ok df ->
    exists T,
      classify_metabolites hw kw ms = Ok T /\
      NoDup (df_index df) /\
      (forall n, In n (df_index df) <-> In n ms) /\
      df_index df = row_order T (uniq ms) /\
      (has_hmdb_id T (hd "" ms) = false \/
       (forall n, In n ms -> has_hmdb_id T n = true) ->
       df_index df = uniq ms) /\
      (forall j n, last_at ms j n ->
         (has_hmdb_id T n = true <->
          Dict.get "hmdb_status" (hmdb_item (hw j)) = Some (VStr "Found")) /\
         exists row,
           set_final_type (merge [] (hmdb_item (hw j)) (kegg_item (kw j))) = Ok row /\
           forall c, df_at df n c = Dict.get c row).
Proof.
  intros hw kw ms df _ H. unfold classify_metabolites_table in H.
  destruct (classify_metabolites hw kw ms) as [T|e] eqn:E; cbn [bind] in H; [|discriminate].
  injection H as <-. exists T. split; [reflexivity|].
  destruct (table_rows _ _ _ _ E) as [K R].
  pose proof (frame_index_order hw kw ms T E) as O. rewrite K in O.
  destruct (FrameFacts.frame_of_rows T (table_NoDup hw kw ms T E)
              (table_rows_NoDup hw kw ms T E)) as (_ & X & A).
  split; [rewrite X; apply LoopFacts.uniq_NoDup|].
  split; [intros n; rewrite O, row_order_In; apply LoopFacts.uniq_in|].
  split; [exact O|]. split.
  - intros [F|F]; rewrite O; apply row_order_first_occurrence.
    + left. now rewrite hd_uniq.
    + right. intros n I. apply F. now apply LoopFacts.uniq_in.
  - intros j n L. destruct (R j n L) as (row & G & C). split.
    + assert (HH : has_hmdb_id T n = Dict.mem "hmdb_id" row).
      { unfold has_hmdb_id.
        exact (f_equal (fun o => Dict.mem "hmdb_id"
                                   (match o with Some v => v | None => [] end)) G). }
      rewrite HH. clear HH.
      destruct (set_final_type_shape _ _ C) as [v ->].
      rewrite (row_has_id _ _ v (hmdb_item_shape (hw j)) (kegg_item_shape (kw j))).
      apply hmdb_item_found.
    + exists row. split; [exact C|]. intros c.
      apply (proj1 (table_cell hw kw ms T n c E) row G).
Qed.

Lemma table_rows_found_first_witness :
  exists df T,
    classify_metabolites_table SampleTable.hmdb_first_and_third
      SamplePipeline.kegg_timeouts SampleTable.names = Ok df /\
    classify_metabolites SampleTable.hmdb_first_and_third
      SamplePipeline.kegg_timeouts SampleTable.names = Ok T /\
    df_index df = row_order T (uniq SampleTable.names) /\
    row_order T (uniq SampleTable.names) = ["Alanine"; "Citrate"; "Betaine"].
Proof.
  destruct (classify_metabolites_table SampleTable.hmdb_first_and_third
              SamplePipeline.kegg_timeouts SampleTable.names) as [df|e] eqn:E;
    [|discriminate E].
  destruct (table_rows_found_first SampleTable.hmdb_first_and_third
              SamplePipeline.kegg_timeouts SampleTable.names df
              ltac:(discriminate) E) as (T & ET & _ & _ & O & _).
  exists df, T. split; [reflexivity|]. split; [exact ET|]. split; [exact O|].
  injection ET as <-. reflexivity.
Defined.

(** C8 fails on the code: for a name whose HMDB record is a [Found] record
    with an empty super class, a KEGG search that times out gives the KEGG
    record [kegg_status = "ID not found"], and with it no table: the run
    raises and the HMDB fields of the name appear nowhere. With KEGG
    answering, the same HMDB record is in the row of the name. *)
Theorem kegg_timeout_loses_hmdb_record :
  get_kegg_id (kegg_find (SamplePipeline.kegg_timeouts 0)) = None /\
  Dict.get "D-Glucose" (query_kegg SamplePipeline.kegg_timeouts SamplePipeline.glucose)
    = Some [("kegg_status", VStr "ID not found")] /\
  Dict.get "D-Glucose"
    (query_hmdb SamplePipeline.hmdb_empty_super_class SamplePipeline.glucose)
    = Some [("hmdb_id", VStr "HMDB0000122"); ("super_class", VNone);
            ("class", VStr "Organooxygen compounds"); ("sub_class", VStr "Unknown");
            ("hmdb_pathways", VList []); ("hmdb_status", VStr "Found")] /\
  classify_metabolites SamplePipeline.hmdb_empty_super_class SamplePipeline.kegg_timeouts
    SamplePipeline.glucose
    = Raise (AttributeError "'NoneType' object has no attribute 'lower'") /\
  classify_metabolites_table SamplePipeline.hmdb_empty_super_class
    SamplePipeline.kegg_timeouts SamplePipeline.glucose
    = Raise (AttributeError "'NoneType' object has no attribute 'lower'") /\
  exists T row,
    classify_metabolites SamplePipeline.hmdb_empty_super_class
      SampleAnswering.kegg_answers SamplePipeline.glucose = Ok T /\
    Dict.get "D-Glucose" T = Some row /\
    Dict.get "hmdb_id" row = Some (VStr "HMDB0000122") /\
    Dict.get "class" row = Some (VStr "Organooxygen compounds") /\
    Dict.get "hmdb_status" row = Some (VStr "Found").
Proof.
  repeat (split; [reflexivity|]).
  do 2 eexists. repeat split; reflexivity.
Qed.

(** ** The columns shown *)

(** X18: the page shows the candidate columns that the table has, in the
    order of the candidates, each once; the columns of a returned table are
    the fields that some row has, and for a non-empty input the first
    column shown is [final_type]. *)
Theorem display_cols_in_candidate_order :
  (forall columns : list string,
      subsequence (display_cols columns) display_candidates /\
      NoDup (display_cols columns) /\
      forall c, In c (display_cols columns) <-> In c display_candidates /\ In c columns) /\
  (forall hw kw (ms : list string) (df : DataFrame),
      ms <> [] ->
      classify_metabolites_table hw kw ms = Ok df ->
      (forall c, In c (df_columns df) <-> exists n v, df_at df n c = Some v) /\
      exists rest, display_cols (df_columns df) = "final_type" :: rest).
Proof.
  assert (M : forall (columns : list string) c,
             existsb (String.eqb c) columns = true <-> In c columns)
    by (intros; apply LabelFacts.inb_In).
  split.
  - intros columns. split; [apply subsequence_filter|]. split.
    + unfold display_cols. apply NoDup_filter.
      repeat (constructor; [simpl; intuition discriminate|]). constructor.
    + intros c. unfold display_cols. rewrite filter_In, M. tauto.
  - intros hw kw ms df Hne H. unfold classify_metabolites_table in H.
    destruct (classify_metabolites hw kw ms) as [T|e] eqn:E; cbn [bind] in H; [|discriminate].
    injection H as <-.
    destruct (FrameFacts.frame_of_rows T (table_NoDup hw kw ms T E)
                (table_rows_NoDup hw kw ms T E)) as (C & _ & A).
    assert (Cols : forall c, In c (df_columns (DataFrame_from_dict T)) <->
                             exists n v, df_at (DataFrame_from_dict T) n c = Some v).
    { intros c. rewrite C, LoopFacts.uniq_in, in_concat. split.
      - intros (l & Il & Ic). apply in_map_iff in Il. destruct Il as ([n row] & <- & Ir).
        cbn [snd] in Ic. apply DictFacts.keys_get in Ic. destruct Ic as [v G].
        exists n, v.
        rewrite (proj1 (table_cell hw kw ms T n c E) row
                   (in_get _ _ _ (table_NoDup hw kw ms T E) Ir)).
        exact G.
      - intros (n & v & G).
        destruct (Dict.get n T) as [row|] eqn:Gn;
          [rewrite (proj1 (table_cell hw kw ms T n c E) row Gn) in G
          |rewrite (proj2 (table_cell hw kw ms T n c E) Gn) in G; discriminate].
        exists (Dict.keys row). split.
        + apply in_map_iff. exists (n, row). split; auto. now apply LoopFacts.get_in.
        + eapply DictFacts.get_Some_keys; eauto. }
    split; [exact Cols|].
    assert (F : In "final_type" (df_columns (DataFrame_from_dict T))).
    { apply Cols. destruct ms as [|n ms]; [contradiction|].
      destruct (occurs_last (n :: ms) n (or_introl eq_refl)) as [j L].
      destruct (table_rows _ _ _ _ E) as [_ R].
      destruct (R j n L) as (row & G & S).
      destruct (set_final_type_shape _ _ S) as [v ->].
      exists n, v. rewrite (proj1 (table_cell hw kw _ T n "final_type" E) _ G).
      apply DictFacts.get_set_eq. }
    apply M in F. unfold display_cols, display_candidates. cbn [filter].
    rewrite F. eauto.
Qed.

Lemma display_cols_in_candidate_order_witness :
  exists df,
    classify_metabolites_table SampleTable.hmdb_first_and_third
      SamplePipeline.kegg_timeouts SampleTable.names = Ok df /\
    display_cols (df_columns df) = ["final_type"; "super_class"; "hmdb_pathways"; "hmdb_id"] /\
    exists rest, display_cols (df_columns df) = "final_type" :: rest.
Proof.
  eexists. split; [reflexivity|]. split; [reflexivity|].
  refine (proj2 (proj2 display_cols_in_candidate_order
            SampleTable.hmdb_first_and_third SamplePipeline.kegg_timeouts
            SampleTable.names _ _ _)).
  - discriminate.
  - reflexivity.
Defined.
